(** * Finetuning orchestrator and Azure deployment wrapper

    A shallow embedding of

    - [llama_index/finetuning/openai/base.py]  (class [OpenAIFinetuneEngine])
    - [llama_index/llms/azure_openai.py]       (class [AzureOpenAI])

    Python methods become computations in a small state-and-exception monad
    that also records, in order, every call that leaves the process (the
    validator, the file system, the provider's HTTP API, the clock, the
    console).  The collaborators whose code lives elsewhere are fields of a
    [world] record; nothing is assumed about what they answer. *)

From Stdlib Require Import ZArith Lia.
From Stdlib Require QArith.
From stdpp Require Import gmap strings list.

Open Scope string_scope.
Open Scope list_scope.
#[local] Set Warnings "-register-all".

(** ** Python values *)

(** The values that travel through keyword mappings ([**model_kwargs],
    [additional_kwargs], the request mapping of the chat client). *)
Inductive pyval :=
  | PNone
  | PBool (b : bool)
  | PInt (z : Z)
  | PFloat (q : QArith_base.Q)
  | PStr (s : string)
  | PDict (d : gmap string pyval)
  | PObj (tag : string).

Definition opt_to_py {A} (inj : A → pyval) (o : option A) : pyval :=
  match o with
  | None => PNone
  | Some a => inj a
  end.

(** ** Exceptions *)

(** The exception classes that occur in the two files, together with the
    classes of [openai.error].  None of them derives from another one of the
    list, so [isinstance] is equality of classes. *)
Inductive exn_class :=
  | ValueError | TypeError | KeyError | ImportError | OSError
  | InvalidRequestError | APIError | APIConnectionError | AuthenticationError
  | PermissionError | RateLimitError | ServiceUnavailableError | Timeout
  | TryAgain.

#[global] Instance exn_class_eq_dec : EqDecision exn_class.
Proof. solve_decision. Defined.

Record exn := Exn { exn_cls : exn_class; exn_msg : string }.

Definition isinstance (c : exn_class) (e : exn) : bool :=
  bool_decide (exn_cls e = c).

Inductive result (A : Type) :=
  | Ok (a : A)
  | Raise (e : exn).
Arguments Ok {A} a.
Arguments Raise {A} e.

(** ** Provider objects *)

(** What [openai.File.create] answers; the code reads [output["id"]]. *)
Record remote_file := { file_id : string }.

(** What [openai.FineTuningJob.create] and [.retrieve] answer; the code reads
    the entries ["id"], ["status"] and ["fine_tuned_model"].  Such an object
    is a non-empty mapping, hence true in a boolean context. *)
Record job := {
  job_id : string;
  status : string;
  fine_tuned_model : option string
}.

(** An instance of the chat client [llama_index.llms.OpenAI]: its fields. *)
Record LLM := { llm_fields : gmap string pyval }.

(** The process-wide settings of the [openai] module, which it initialises
    from [OPENAI_API_BASE], [OPENAI_API_TYPE], [OPENAI_API_VERSION] and
    [OPENAI_API_KEY]. *)
Record openai_settings := {
  api_base : string;
  api_type : string;
  api_version : option string;
  api_key : option string
}.

(** ** Observable events *)

Inductive event :=
  | EvValidateJson (path : string)
  | EvOpen (path mode : string)
  | EvClose (path : string)
  | EvFileCreate (content purpose user_provided_filename : string)
  | EvJobCreate (training_file model : string)
  | EvJobRetrieve (id : string)
  | EvSleep (seconds : Z)
  | EvPrint (msg : string)
  | EvLogInfo (msg : string)
  | EvOpenAI (kwargs : gmap string pyval)
  | EvImport (module : string).

Abbreviation trace := (list event).


Definition is_upload (ev : event) : bool :=
  match ev with EvFileCreate _ _ _ => true | _ => false end.

Definition is_job_create (ev : event) : bool :=
  match ev with EvJobCreate _ _ => true | _ => false end.

Definition is_job_retrieve (ev : event) : bool :=
  match ev with EvJobRetrieve _ => true | _ => false end.

Definition is_validate (ev : event) : bool :=
  match ev with EvValidateJson _ => true | _ => false end.

Definition is_open (ev : event) : bool :=
  match ev with EvOpen _ _ => true | _ => false end.

Definition is_factory (ev : event) : bool :=
  match ev with EvOpenAI _ => true | _ => false end.

(** Number of earlier calls of one kind. *)
Definition calls (p : event → bool) (t : trace) : nat :=
  length (filter (λ ev, p ev = true) t).

(** The seconds slept, in order. *)
Fixpoint sleeps (t : trace) : list Z :=
  match t with
  | [] => []
  | EvSleep n :: t' => n :: sleeps t'
  | _ :: t' => sleeps t'
  end.

(** ** The outside world *)

(** Every collaborator answers as a function of how often it has been called
    before and of its arguments: the [n]-th call of an endpoint may answer
    differently from the one before (a file becomes ready, a job finishes).
    [w_openai] is the [openai] module as an [import] finds it, [None] when
    the package is not installed. *)
Record world := {
  w_validate_json : nat → string → result unit;
  w_open : nat → string → string → result string;
  w_File_create : nat → string → string → string → result remote_file;
  w_FineTuningJob_create : nat → string → string → result job;
  w_FineTuningJob_retrieve : nat → string → result job;
  w_OpenAI : nat → gmap string pyval → result LLM;
  w_openai : option openai_settings
}.

(** ** The monad *)

Inductive outcome (S A : Type) :=
  | Returned (a : A) (s : S) (t : trace)
  | Raised (e : exn) (s : S) (t : trace)
  | OutOfFuel (s : S) (t : trace).
Arguments Returned {S A} a s t.
Arguments Raised {S A} e s t.
Arguments OutOfFuel {S A} s t.

Definition M (S A : Type) : Type := world → S → trace → outcome S A.

Definition ret {S A} (a : A) : M S A := λ _ s t, Returned a s t.

Definition bind {S A B} (m : M S A) (k : A → M S B) : M S B :=
  λ w s t,
    match m w s t with
    | Returned a s' t' => k a w s' t'
    | Raised e s' t' => Raised e s' t'
    | OutOfFuel s' t' => OutOfFuel s' t'
    end.

Declare Scope py_scope.
Delimit Scope py_scope with py.
Notation "x <- m ;; k" := (bind m (λ x, k))
  (at level 100, m at next level, right associativity) : py_scope.
Notation "m ;; k" := (bind m (λ _, k))
  (at level 100, right associativity) : py_scope.
Open Scope py_scope.

Definition raise {S A} (e : exn) : M S A := λ _ s t, Raised e s t.

Definition out_of_fuel {S A} : M S A := λ _ s t, OutOfFuel s t.

Definition get_self {S} : M S S := λ _ s t, Returned s s t.

Definition put_self {S} (s : S) : M S unit := λ _ _ t, Returned tt s t.

Definition emit {S} (ev : event) : M S unit :=
  λ _ s t, Returned tt s (t ++ [ev]).

(** A call of a collaborator: the call is recorded, then its answer, which
    depends on the number of earlier calls of that kind, is returned or
    raised. *)
Definition call {S A} (p : event → bool) (ev : event)
    (answer : world → nat → result A) : M S A :=
  λ w s t,
    match answer w (calls p t) with
    | Ok a => Returned a s (t ++ [ev])
    | Raise e => Raised e s (t ++ [ev])
    end.

(** [try: body except <catches>: handler] *)
Definition try_except {S A} (body : M S A) (catches : exn → bool)
    (handler : M S A) : M S A :=
  λ w s t,
    match body w s t with
    | Raised e s' t' =>
        if catches e then handler w s' t' else Raised e s' t'
    | r => r
    end.

(** [try: body finally: cleanup], with a cleanup that cannot fail. *)
Definition try_finally {S A} (body : M S A) (cleanup : M S unit) : M S A :=
  λ w s t,
    match body w s t with
    | Returned a s' t' =>
        match cleanup w s' t' with
        | Returned _ s'' t'' => Returned a s'' t''
        | Raised e s'' t'' => Raised e s'' t''
        | OutOfFuel s'' t'' => OutOfFuel s'' t''
        end
    | Raised e s' t' =>
        match cleanup w s' t' with
        | Returned _ s'' t'' => Raised e s'' t''
        | Raised e' s'' t'' => Raised e' s'' t''
        | OutOfFuel s'' t'' => OutOfFuel s'' t''
        end
    | OutOfFuel s' t' => OutOfFuel s' t'
    end.

Definition when {S} (b : bool) (m : M S unit) : M S unit :=
  if b then m else ret tt.

Definition lift_result {S A} (r : result A) : M S A :=
  match r with
  | Ok a => ret a
  | Raise e => raise e
  end.

(** ** Python built-ins used by the two files *)

Definition slash : Ascii.ascii := Ascii.ascii_of_nat 47.

Fixpoint has_slash (p : string) : bool :=
  match p with
  | EmptyString => false
  | String c p' => Ascii.eqb c slash || has_slash p'
  end.

(** [os.path.basename]: what follows the last slash. *)
Fixpoint basename (p : string) : string :=
  match p with
  | EmptyString => EmptyString
  | String c p' =>
      if Ascii.eqb c slash || has_slash p' then basename p' else p
  end.

(** How Python binds [f(k1=v1, ..., **star)]: a key given both by name and
    through the starred mapping is a [TypeError] raised at the call, before
    [f] runs. *)
Fixpoint bind_keywords (named : list (string * pyval))
    (star : gmap string pyval) : result (gmap string pyval) :=
  match named with
  | [] => Ok star
  | (k, v) :: named' =>
      match star !! k with
      | Some _ =>
          Raise (Exn TypeError
                   ("got multiple values for keyword argument '" +:+ k +:+ "'"))
      | None =>
          match bind_keywords named' star with
          | Ok kw => Ok (<[k := v]> kw)
          | Raise e => Raise e
          end
      end
  end.

(** [d.pop(k)] without a default. *)
Definition dict_pop (k : string) (d : gmap string pyval)
    : result (pyval * gmap string pyval) :=
  match d !! k with
  | Some v => Ok (v, delete k d)
  | None => Raise (Exn KeyError ("'" +:+ k +:+ "'"))
  end.

(** [x in (a, b, ...)] for strings. *)
Definition str_in (x : string) (xs : list string) : bool :=
  existsb (String.eqb x) xs.

(** ** Collaborators *)

Section Collaborators.
Context {S : Type}.

Definition validate_json (path : string) : M S unit :=
  call is_validate (EvValidateJson path) (λ w n, w_validate_json w n path).

Definition py_open (path mode : string) : M S string :=
  call is_open (EvOpen path mode) (λ w n, w_open w n path mode).

Definition File_create (file purpose user_provided_filename : string)
    : M S remote_file :=
  call is_upload (EvFileCreate file purpose user_provided_filename)
    (λ w n, w_File_create w n file purpose user_provided_filename).

Definition FineTuningJob_create (training_file model : string) : M S job :=
  call is_job_create (EvJobCreate training_file model)
    (λ w n, w_FineTuningJob_create w n training_file model).

Definition FineTuningJob_retrieve (id : string) : M S job :=
  call is_job_retrieve (EvJobRetrieve id)
    (λ w n, w_FineTuningJob_retrieve w n id).

(** The constructor of [llama_index.llms.OpenAI], called with keywords. *)
Definition OpenAI (kwargs : gmap string pyval) : M S LLM :=
  call is_factory (EvOpenAI kwargs) (λ w n, w_OpenAI w n kwargs).

(** [import openai] *)
Definition import_openai : M S openai_settings :=
  λ w s t,
    match w_openai w with
    | Some m => Returned m s (t ++ [EvImport "openai"])
    | None =>
        Raised (Exn ImportError "No module named 'openai'") s
          (t ++ [EvImport "openai"])
    end.

Definition print (msg : string) : M S unit := emit (EvPrint msg).
Definition logger_info (msg : string) : M S unit := emit (EvLogInfo msg).
Definition sleep (seconds : Z) : M S unit := emit (EvSleep seconds).

(** [with open(path, mode) as f: body] *)
Definition with_open {A} (path mode : string) (body : string → M S A)
    : M S A :=
  f <- py_open path mode ;;
  try_finally (body f) (emit (EvClose path)).

End Collaborators.

(** ** [llama_index/finetuning/openai/base.py] *)

Module OpenAIFinetuneEngine.

Record engine := {
  base_model : string;
  data_path : string;
  _verbose : bool;
  _start_job : option job
}.

Definition set_start_job (j : option job) (self : engine) : engine :=
  {| base_model := base_model self;
     data_path := data_path self;
     _verbose := _verbose self;
     _start_job := j |}.

Abbreviation Py := (M engine).

(** *** [__init__] *)

Definition __init__ (base_model data_path : string) (verbose : bool)
    (start_job_id : option string) : M unit engine :=
  λ w _ t,
    let self := {| base_model := base_model; data_path := data_path;
                   _verbose := verbose; _start_job := None |} in
    match start_job_id with
    | None => Returned self tt t
    | Some id =>
        match FineTuningJob_retrieve id w self t with
        | Returned j _ t' => Returned (set_start_job (Some j) self) tt t'
        | Raised e _ t' => Raised e tt t'
        | OutOfFuel _ t' => OutOfFuel tt t'
        end
    end.

(** *** [finetune] *)

(** The [while True] loop of lines 71-80.  One unit of fuel pays for one
    iteration; the loop itself has no bound. *)
Fixpoint launch_training (fuel : nat) (output : remote_file) : Py unit :=
  match fuel with
  | O => out_of_fuel
  | S fuel' =>
      stop <- try_except
                (self <- get_self ;;
                 job_output <- FineTuningJob_create (file_id output)
                                 (base_model self) ;;
                 put_self (set_start_job (Some job_output) self) ;;
                 ret true)
                (isinstance InvalidRequestError)
                (print "Waiting for file to be ready..." ;;
                 sleep 60 ;;
                 ret false) ;;
      if stop then ret tt else launch_training fuel' output
  end.

Definition info_str (output : remote_file) : string :=
  "Training job " +:+ file_id output +:+ " launched. "
  +:+ "You will be emailed when it's complete.".

Definition finetune (fuel : nat) : Py unit :=
  self <- get_self ;;
  validate_json (data_path self) ;;
  let file_name := basename (data_path self) in
  output <- with_open (data_path self) "rb"
              (λ f, File_create f "fine-tune" file_name) ;;
  logger_info "File uploaded..." ;;
  when (_verbose self) (print "File uploaded...") ;;
  launch_training fuel output ;;
  logger_info (info_str output) ;;
  when (_verbose self) (print (info_str output)).

(** *** [get_current_job] *)

Definition get_current_job : Py job :=
  self <- get_self ;;
  match _start_job self with
  | None => raise (Exn ValueError "Must call finetune() first")
  | Some start_job =>
      current_job <- FineTuningJob_retrieve (job_id start_job) ;;
      ret current_job
  end.

(** *** [get_finetuned_model] *)

Definition get_finetuned_model (model_kwargs : gmap string pyval) : Py LLM :=
  current_job <- get_current_job ;;
  let job_id := job_id current_job in
  let status := status current_job in
  match fine_tuned_model current_job with
  | None =>
      raise (Exn ValueError
               ("Job " +:+ job_id
                +:+ " does not have a finetuned model id ready yet."))
  | Some model_id =>
      if negb (String.eqb status "succeeded") then
        raise (Exn ValueError
                 ("Job " +:+ job_id +:+ " has status " +:+ status
                  +:+ ", cannot get model"))
      else
        kwargs <- lift_result
                    (bind_keywords [("model", PStr model_id)] model_kwargs) ;;
        llm <- OpenAI kwargs ;;
        ret llm
  end.

End OpenAIFinetuneEngine.

(** ** [llama_index/llms/azure_openai.py] *)

Module AzureOpenAI.

(** The arguments of [__init__]; [default_args] holds the defaults of the
    signature.  [a_kwargs] is the [**kwargs] rest. *)
Record init_args := {
  a_model : string;
  a_engine : option string;
  a_temperature : QArith_base.Q;
  a_max_tokens : option Z;
  a_additional_kwargs : option (gmap string pyval);
  a_max_retries : Z;
  a_callback_manager : option string;
  a_kwargs : gmap string pyval
}.

Definition default_args : init_args :=
  {| a_model := "gpt-35-turbo";
     a_engine := None;
     a_temperature := QArith_base.Qmake 1 10;
     a_max_tokens := None;
     a_additional_kwargs := None;
     a_max_retries := 10;
     a_callback_manager := None;
     a_kwargs := ∅ |}.

(** An instance: the field [engine] the class adds, and what the parent
    class [OpenAI] holds. *)
Record instance := {
  engine : string;
  parent : LLM
}.

(** *** [validate_env] *)

Definition validate_env {S} : M S unit :=
  try_except
    (openai <- import_openai ;;
     when (String.eqb (api_base openai) "https://api.openai.com/v1")
       (raise (Exn ValueError
                 ("You must set OPENAI_API_BASE to your Azure endpoint. "
                  +:+ "It should look like https://YOUR_RESOURCE_NAME.openai.azure.com/"))) ;;
     when (negb (str_in (api_type openai) ["azure"; "azure_ad"; "azuread"]))
       (raise (Exn ValueError
                 ("You must set OPENAI_API_TYPE to one of "
                  +:+ "(`azure`, `azuread`, `azure_ad`) for Azure OpenAI."))) ;;
     when (bool_decide (api_version openai = None))
       (raise (Exn ValueError
                 "You must set OPENAI_API_VERSION for Azure OpenAI.")))
    (isinstance ImportError)
    (raise (Exn ImportError
              "You must install the `openai` package to use Azure OpenAI.")).

(** *** [__init__] *)

Definition super_init_keywords (engine : string) (a : init_args)
    : list (string * pyval) :=
  [ ("engine", PStr engine);
    ("model", PStr (a_model a));
    ("temperature", PFloat (a_temperature a));
    ("max_tokens", opt_to_py PInt (a_max_tokens a));
    ("additional_kwargs", opt_to_py PDict (a_additional_kwargs a));
    ("max_retries", PInt (a_max_retries a));
    ("callback_manager", opt_to_py PObj (a_callback_manager a)) ].

Definition __init__ (a : init_args) : M unit instance :=
  match a_engine a with
  | None => raise (Exn ValueError "You must specify an `engine` parameter.")
  | Some engine =>
      validate_env ;;
      kwargs <- lift_result
                  (bind_keywords (super_init_keywords engine a) (a_kwargs a)) ;;
      llm <- OpenAI kwargs ;;
      ret {| engine := engine; parent := llm |}
  end.

(** *** [_model_kwargs] *)

Section ModelKwargs.

(** [super()._model_kwargs]: the request mapping the parent class builds
    from its own fields. *)
Variable super_model_kwargs : LLM → gmap string pyval.

Definition _model_kwargs (self : instance) : result (gmap string pyval) :=
  let model_kwargs := super_model_kwargs (parent self) in
  match dict_pop "model" model_kwargs with
  | Raise e => Raise e
  | Ok (_, model_kwargs) => Ok (<["engine" := PStr (engine self)]> model_kwargs)
  end.

End ModelKwargs.

Definition class_name : string := "azure_openai_llm".

End AzureOpenAI.

(** ** Concrete scenarios *)

Module Scenarios.
Import OpenAIFinetuneEngine.

Definition job_running : job :=
  {| job_id := "ftjob-1"; status := "running"; fine_tuned_model := None |}.

Definition job_succeeded : job :=
  {| job_id := "ftjob-1"; status := "succeeded";
     fine_tuned_model := Some "ft:abc123" |}.

(** An inconsistent snapshot: a model id although the job failed. *)
Definition job_failed_with_model : job :=
  {| job_id := "ftjob-1"; status := "failed";
     fine_tuned_model := Some "ft:abc123" |}.

(** Another inconsistent snapshot: succeeded, yet no model id. *)
Definition job_succeeded_without_model : job :=
  {| job_id := "ftjob-1"; status := "succeeded"; fine_tuned_model := None |}.

(** Extra configuration for the model handle: decoding parameters. *)
Definition decoding_config : gmap string pyval :=
  {[ "temperature" := PFloat (QArith_base.Qmake 3 10);
     "max_tokens" := PInt 256 ]}.

(** Extra configuration that names a model of its own. *)
Definition config_naming_a_model : gmap string pyval :=
  {[ "model" := PStr "gpt-4" ]}.

Definition azure_settings : openai_settings :=
  {| api_base := "https://example.openai.azure.com/";
     api_type := "azure";
     api_version := Some "2023-05-15";
     api_key := Some "sk-secret" |}.


(** A world in which the job-creation endpoint answers [create n] to its
    [n]-th call and job retrieval answers [retrieved]; everything else
    succeeds. *)
Definition world_with (create : nat → result job) (retrieved : job)
    (settings : option openai_settings) : world :=
  {| w_validate_json := λ _ _, Ok tt;
     w_open := λ _ _ _, Ok "{messages: []}";
     w_File_create := λ _ _ _ _, Ok {| file_id := "file-1" |};
     w_FineTuningJob_create := λ n _ _, create n;
     w_FineTuningJob_retrieve := λ _ _, Ok retrieved;
     w_OpenAI := λ _ kw, Ok {| llm_fields := kw |};
     w_openai := settings |}.

Definition file_not_ready : exn :=
  Exn InvalidRequestError "File 'file-1' is still being processed".

(** An invalid request that no amount of waiting repairs. *)
Definition unknown_model : exn :=
  Exn InvalidRequestError "The model `gpt-0` does not exist".

Definition rate_limited : exn := Exn RateLimitError "Rate limit reached".

(** The first [n] calls fail with [e], the next one succeeds. *)
Definition fails_then_ok (n : nat) (e : exn) (k : nat) : result job :=
  if (k <? n)%nat then Raise e else Ok job_running.

(** The first [n] calls fail with [e], the next one with [e']. *)
Definition fails_then_raises (n : nat) (e e' : exn) (k : nat) : result job :=
  if (k <? n)%nat then Raise e else Raise e'.

Definition world_ready_after (n : nat) : world :=
  world_with (fails_then_ok n file_not_ready) job_succeeded
    (Some azure_settings).

Definition world_unknown_model : world :=
  world_with (fails_then_ok 1 unknown_model) job_succeeded
    (Some azure_settings).

Definition world_rate_limited_after (n : nat) : world :=
  world_with (fails_then_raises n file_not_ready rate_limited) job_succeeded
    (Some azure_settings).



Definition world_retrieving (j : job) : world :=
  world_with (λ _, Ok job_running) j (Some azure_settings).

Definition fresh_engine : engine :=
  {| base_model := "gpt-3.5-turbo"; data_path := "data/train.jsonl";
     _verbose := false; _start_job := None |}.

Definition resumed_engine : engine :=
  set_start_job (Some job_running) fresh_engine.

Definition azure_args : AzureOpenAI.init_args :=
  {| AzureOpenAI.a_model := "gpt-35-turbo";
     AzureOpenAI.a_engine := Some "my-deployment";
     AzureOpenAI.a_temperature := QArith_base.Qmake 1 10;
     AzureOpenAI.a_max_tokens := None;
     AzureOpenAI.a_additional_kwargs := None;
     AzureOpenAI.a_max_retries := 10;
     AzureOpenAI.a_callback_manager := None;
     AzureOpenAI.a_kwargs := ∅ |}.

(** No [openai] package at all. *)
Definition world_without_openai : world :=
  world_with (λ _, Ok job_running) job_running None.

(** A deployed instance, and a parent class whose request mapping is made of
    its fields. *)
Definition azure_instance : AzureOpenAI.instance :=
  {| AzureOpenAI.engine := "my-deployment";
     AzureOpenAI.parent :=
       {| llm_fields :=
            {[ "model" := PStr "gpt-35-turbo";
               "temperature" := PFloat (QArith_base.Qmake 1 10);
               "max_tokens" := PNone ]} |} |}.

Definition fields_as_request (llm : LLM) : gmap string pyval := llm_fields llm.

End Scenarios.

(** ** Vocabulary of the statements *)

Module Observations.
Import OpenAIFinetuneEngine.

(** What one failed round of the submission loop leaves on the trace. *)
Definition retry_round (training_file model : string) : trace :=
  [ EvJobCreate training_file model;
    EvPrint "Waiting for file to be ready...";
    EvSleep 60 ].

Fixpoint retry_rounds (n : nat) (training_file model : string) : trace :=
  match n with
  | O => []
  | S n' => retry_round training_file model
            ++ retry_rounds n' training_file model
  end.

(** In a fresh process the dataset of [self] validates, opens with content
    [content] and uploads as [output]. *)
Definition uploads (w : world) (self : engine) (content : string)
    (output : remote_file) : Prop :=
  w_validate_json w 0 (data_path self) = Ok tt
  ∧ w_open w 0 (data_path self) "rb" = Ok content
  ∧ w_File_create w 0 content "fine-tune" (basename (data_path self))
    = Ok output.

(** The trace of [finetune] up to the submission loop. *)
Definition upload_trace (self : engine) (content : string) : trace :=
  [ EvValidateJson (data_path self);
    EvOpen (data_path self) "rb";
    EvFileCreate content "fine-tune" (basename (data_path self));
    EvClose (data_path self);
    EvLogInfo "File uploaded..." ]
  ++ (if _verbose self then [EvPrint "File uploaded..."] else []).

(** The trace of [finetune] after the submission loop. *)
Definition launched_trace (self : engine) (output : remote_file) : trace :=
  EvLogInfo (info_str output)
  :: (if _verbose self then [EvPrint (info_str output)] else []).

(** The job-creation endpoint rejects the calls number [from], ...,
    [from + n - 1] for the uploaded file as invalid requests. *)
Definition rejects (w : world) (self : engine) (output : remote_file)
    (from n : nat) : Prop :=
  ∀ k, (k < n)%nat →
    ∃ e, w_FineTuningJob_create w (from + k) (file_id output)
           (base_model self) = Raise e
         ∧ exn_cls e = InvalidRequestError.

(** The retry policy in the words of the specification, for a given reading
    [file_not_ready] of "the uploaded file is not yet ready": a failure of
    the first submission that is not of that kind reaches the caller at once,
    without any sleep. *)
Definition retries_only_when (file_not_ready : exn → bool) : Prop :=
  ∀ w self content output e,
    uploads w self content output →
    w_FineTuningJob_create w 0 (file_id output) (base_model self) = Raise e →
    file_not_ready e = false →
    ∀ fuel, (0 < fuel)%nat →
      ∃ t, finetune fuel w self [] = Raised e self t ∧ sleeps t = [].

(** ... where not being ready is told apart from some other invalid
    request. *)
Definition distinguishes_file_not_ready : Prop :=
  ∃ file_not_ready : exn → bool,
    (∃ e, exn_cls e = InvalidRequestError ∧ file_not_ready e = false)
    ∧ retries_only_when file_not_ready.

End Observations.

(** ** Further vocabulary: whole runs, the console, keyword binding *)

Module Views.
Import OpenAIFinetuneEngine Scenarios Observations.

Definition outcome_trace {S A} (o : outcome S A) : trace :=
  match o with
  | Returned _ _ t | Raised _ _ t | OutOfFuel _ t => t
  end.

Definition outcome_state {S A} (o : outcome S A) : S :=
  match o with
  | Returned _ s _ | Raised _ s _ | OutOfFuel s _ => s
  end.

(** What reaches the console, in order. *)
Fixpoint prints (t : trace) : list string :=
  match t with
  | [] => []
  | EvPrint msg :: t' => msg :: prints t'
  | _ :: t' => prints t'
  end.

Fixpoint without_prints (t : trace) : trace :=
  match t with
  | [] => []
  | EvPrint _ :: t' => without_prints t'
  | ev :: t' => ev :: without_prints t'
  end.

Definition is_close (ev : event) : bool :=
  match ev with EvClose _ => true | _ => false end.

Definition set_verbose (b : bool) (self : engine) : engine :=
  {| base_model := base_model self;
     data_path := data_path self;
     _verbose := b;
     _start_job := _start_job self |}.

(** The runs of [finetune] in a fresh process, one constructor for each way
    the method can end: in the validator, at [open], at the upload, with a
    job, with a submission failure that is not retried, or still waiting when
    the fuel is spent. *)
Inductive finetune_run (w : world) (self : engine)
    : outcome engine unit → Prop :=
  | run_invalid e :
      w_validate_json w 0 (data_path self) = Raise e →
      finetune_run w self
        (Raised e self [EvValidateJson (data_path self)])
  | run_unreadable e :
      w_validate_json w 0 (data_path self) = Ok tt →
      w_open w 0 (data_path self) "rb" = Raise e →
      finetune_run w self
        (Raised e self
           [EvValidateJson (data_path self); EvOpen (data_path self) "rb"])
  | run_upload_failed content e :
      w_validate_json w 0 (data_path self) = Ok tt →
      w_open w 0 (data_path self) "rb" = Ok content →
      w_File_create w 0 content "fine-tune" (basename (data_path self))
      = Raise e →
      finetune_run w self
        (Raised e self
           [ EvValidateJson (data_path self);
             EvOpen (data_path self) "rb";
             EvFileCreate content "fine-tune" (basename (data_path self));
             EvClose (data_path self) ])
  | run_launched content output n j :
      uploads w self content output →
      rejects w self output 0 n →
      w_FineTuningJob_create w n (file_id output) (base_model self) = Ok j →
      finetune_run w self
        (Returned tt (set_start_job (Some j) self)
           (upload_trace self content
            ++ retry_rounds n (file_id output) (base_model self)
            ++ [EvJobCreate (file_id output) (base_model self)]
            ++ launched_trace self output))
  | run_refused content output n e :
      uploads w self content output →
      rejects w self output 0 n →
      w_FineTuningJob_create w n (file_id output) (base_model self)
      = Raise e →
      exn_cls e ≠ InvalidRequestError →
      finetune_run w self
        (Raised e self
           (upload_trace self content
            ++ retry_rounds n (file_id output) (base_model self)
            ++ [EvJobCreate (file_id output) (base_model self)]))
  | run_waiting content output n :
      uploads w self content output →
      rejects w self output 0 n →
      finetune_run w self
        (OutOfFuel self
           (upload_trace self content
            ++ retry_rounds n (file_id output) (base_model self))).

(** The mapping a call [f(k1=v1, ..., **star)] hands to [f] when no key is
    given twice. *)
Fixpoint keywords_over (named : list (string * pyval))
    (star : gmap string pyval) : gmap string pyval :=
  match named with
  | [] => star
  | (k, v) :: named' => <[k := v]> (keywords_over named' star)
  end.

(** The settings [validate_env] lets through. *)
Definition routes_to_azure (openai : openai_settings) : Prop :=
  api_base openai ≠ "https://api.openai.com/v1"
  ∧ api_type openai ∈ ["azure"; "azure_ad"; "azuread"]
  ∧ api_version openai ≠ None.

(** The names [AzureOpenAI.__init__] passes to the parent constructor by
    keyword. *)
Definition super_init_names : list string :=
  [ "engine"; "model"; "temperature"; "max_tokens"; "additional_kwargs";
    "max_retries"; "callback_manager" ].

(** *** More scenarios *)

(** Job retrieval answers [running] to the first call and [succeeded] from
    then on. *)
Definition world_finishing : world :=
  {| w_validate_json := λ _ _, Ok tt;
     w_open := λ _ _ _, Ok "{messages: []}";
     w_File_create := λ _ _ _ _, Ok {| file_id := "file-1" |};
     w_FineTuningJob_create := λ _ _ _, Ok job_running;
     w_FineTuningJob_retrieve :=
       λ n _, if (n <? 1)%nat then Ok job_running else Ok job_succeeded;
     w_OpenAI := λ _ kw, Ok {| llm_fields := kw |};
     w_openai := Some azure_settings |}.

(** The upload endpoint is down. *)
Definition upload_down : exn := Exn APIConnectionError "Connection refused".

Definition world_upload_down : world :=
  {| w_validate_json := λ _ _, Ok tt;
     w_open := λ _ _ _, Ok "{messages: []}";
     w_File_create := λ _ _ _ _, Raise upload_down;
     w_FineTuningJob_create := λ _ _ _, Ok job_running;
     w_FineTuningJob_retrieve := λ _ _, Ok job_running;
     w_OpenAI := λ _ kw, Ok {| llm_fields := kw |};
     w_openai := Some azure_settings |}.

Definition verbose_engine : engine := set_verbose true fresh_engine.

(** The public endpoint and a foreign API type at once. *)
Definition public_settings : openai_settings :=
  {| api_base := "https://api.openai.com/v1";
     api_type := "open_ai";
     api_version := None;
     api_key := Some "sk-secret" |}.

Definition world_public : world :=
  world_with (λ _, Ok job_running) job_running (Some public_settings).

Definition world_azure : world :=
  world_with (λ _, Ok job_running) job_running (Some azure_settings).

(** Arguments with one keyword the signature does not name. *)
Definition azure_args_with_extra : AzureOpenAI.init_args :=
  {| AzureOpenAI.a_model := "gpt-35-turbo";
     AzureOpenAI.a_engine := Some "my-deployment";
     AzureOpenAI.a_temperature := QArith_base.Qmake 1 10;
     AzureOpenAI.a_max_tokens := Some 256%Z;
     AzureOpenAI.a_additional_kwargs := None;
     AzureOpenAI.a_max_retries := 10;
     AzureOpenAI.a_callback_manager := None;
     AzureOpenAI.a_kwargs := {[ "api_key" := PStr "sk-secret" ]} |}.

(** An instance whose parent's fields lack a model. *)
Definition azure_instance_without_model : AzureOpenAI.instance :=
  {| AzureOpenAI.engine := "my-deployment";
     AzureOpenAI.parent :=
       {| llm_fields := {[ "temperature" := PFloat (QArith_base.Qmake 1 10) ]} |} |}.

(** An instance whose parent's fields already carry an engine. *)
Definition azure_instance_with_engine : AzureOpenAI.instance :=
  {| AzureOpenAI.engine := "my-deployment";
     AzureOpenAI.parent :=
       {| llm_fields :=
            {[ "model" := PStr "gpt-35-turbo";
               "engine" := PStr "somebody-else" ]} |} |}.

End Views.

(** ** The validator's part in [finetune] *)

Module Validation.
Import OpenAIFinetuneEngine Scenarios Observations.






End Validation.

(** ** The parent constructor's part in [AzureOpenAI.__init__] *)

Module ParentConstructor.








End ParentConstructor.

(** * Properties of the finetuning orchestrator *)

Module FinetuneProperties.
Import OpenAIFinetuneEngine Scenarios Observations.

Lemma calls_snoc p t ev :
  calls p (t ++ [ev]) = (calls p t + (if p ev then 1 else 0))%nat.
Proof.
  unfold calls. rewrite filter_app, length_app. f_equal.
  destruct (p ev) eqn:E.
  - rewrite filter_cons_True by done. done.
  - rewrite filter_cons_False by (rewrite E; done). done.
Qed.

Lemma calls_app p t u : calls p (t ++ u) = (calls p t + calls p u)%nat.
Proof. unfold calls. by rewrite filter_app, length_app. Qed.

Lemma sleeps_app t u : sleeps (t ++ u) = sleeps t ++ sleeps u.
Proof.
  induction t as [|ev t IH]; [done|].
  destruct ev; simpl; rewrite ?IH; done.
Qed.

Lemma sleeps_retry_rounds n f m : sleeps (retry_rounds n f m) = replicate n 60%Z.
Proof. induction n as [|n IH]; [done|]. simpl. by rewrite IH. Qed.

Lemma calls_retry_rounds n f m : calls is_job_create (retry_rounds n f m) = n.
Proof.
  induction n as [|n IH]; [done|].
  change (retry_rounds (S n) f m) with (retry_round f m ++ retry_rounds n f m).
  rewrite calls_app, IH. done.
Qed.

Lemma retry_rounds_snoc n f m :
  retry_rounds (S n) f m = retry_rounds n f m ++ retry_round f m.
Proof.
  induction n as [|n IH]; [done|].
  change (retry_rounds (S (S n)) f m)
    with (retry_round f m ++ retry_rounds (S n) f m).
  rewrite IH at 1. simpl. done.
Qed.

(** One round of the loop, by the answer of the endpoint. *)
Lemma launch_training_step fuel output w self t :
  launch_training (S fuel) output w self t =
    match w_FineTuningJob_create w (calls is_job_create t) (file_id output)
            (base_model self) with
    | Ok j =>
        Returned tt (set_start_job (Some j) self)
          (t ++ [EvJobCreate (file_id output) (base_model self)])
    | Raise e =>
        if isinstance InvalidRequestError e then
          launch_training fuel output w self
            (t ++ retry_round (file_id output) (base_model self))
        else
          Raised e self (t ++ [EvJobCreate (file_id output) (base_model self)])
    end.
Proof.
  simpl. unfold bind at 1. unfold try_except, bind, get_self,
    FineTuningJob_create, call, put_self, ret, print, sleep, emit.
  destruct (w_FineTuningJob_create _ _ _ _) as [j|e]; [done|].
  destruct (isinstance _ e); [|done].
  rewrite <- !app_assoc. done.
Qed.

Section SubmissionLoop.
Context (w : world) (self : engine) (output : remote_file).

Let create (k : nat) : result job :=
  w_FineTuningJob_create w k (file_id output) (base_model self).
Let rounds (n : nat) : trace :=
  retry_rounds n (file_id output) (base_model self).
Let submitted : event := EvJobCreate (file_id output) (base_model self).

Let rejects := rejects w self output.

Lemma rejects_tail from n : rejects from (S n) → rejects (S from) n.
Proof.
  intros H k Hk. destruct (H (S k)) as (e & He & Hc); [lia|].
  exists e. split; [|done]. by replace (S from + k)%nat with (from + S k)%nat by lia.
Qed.

(** [n] rejected calls cost [n] rounds, each ending in a sleep of 60. *)
Lemma launch_training_rounds n : ∀ fuel t,
  rejects (calls is_job_create t) n →
  launch_training (n + fuel) output w self t
  = launch_training fuel output w self (t ++ rounds n).
Proof.
  induction n as [|n IH]; intros fuel t Hrej.
  - simpl. by rewrite app_nil_r.
  - change (S n + fuel)%nat with (S (n + fuel)).
    rewrite launch_training_step.
    destruct (Hrej 0%nat) as (e & He & Hc); [lia|].
    rewrite Nat.add_0_r in He. rewrite He. unfold isinstance. rewrite bool_decide_eq_true_2 by done.
    rewrite IH.
    + subst rounds; cbv beta. simpl. rewrite <- app_assoc. done.
    + rewrite calls_app.
      change (calls is_job_create (retry_round _ _)) with 1%nat.
      replace (calls is_job_create t + 1)%nat
        with (S (calls is_job_create t)) by lia.
      by apply rejects_tail.
Qed.

Lemma launch_training_succeeds n j fuel t :
  rejects (calls is_job_create t) n →
  create (calls is_job_create t + n) = Ok j →
  (n < fuel)%nat →
  launch_training fuel output w self t
  = Returned tt (set_start_job (Some j) self) (t ++ rounds n ++ [submitted]).
Proof.
  intros Hrej Hok Hfuel.
  replace fuel with (n + S (fuel - S n))%nat by lia.
  rewrite launch_training_rounds by done.
  rewrite launch_training_step, calls_app.
  subst rounds; cbv beta. rewrite calls_retry_rounds.
  fold (create (calls is_job_create t + n)). rewrite Hok.
  by rewrite <- app_assoc.
Qed.

Lemma launch_training_propagates n e fuel t :
  rejects (calls is_job_create t) n →
  create (calls is_job_create t + n) = Raise e →
  exn_cls e ≠ InvalidRequestError →
  (n < fuel)%nat →
  launch_training fuel output w self t
  = Raised e self (t ++ rounds n ++ [submitted]).
Proof.
  intros Hrej He Hc Hfuel.
  replace fuel with (n + S (fuel - S n))%nat by lia.
  rewrite launch_training_rounds by done.
  rewrite launch_training_step, calls_app.
  subst rounds; cbv beta. rewrite calls_retry_rounds.
  fold (create (calls is_job_create t + n)). rewrite He.
  unfold isinstance. rewrite bool_decide_eq_false_2 by done.
  by rewrite <- app_assoc.
Qed.

Lemma launch_training_never_gives_up fuel t :
  (∀ n, rejects (calls is_job_create t) n) →
  launch_training fuel output w self t = OutOfFuel self (t ++ rounds fuel).
Proof.
  intros Hrej.
  replace fuel with (fuel + 0)%nat at 1 by lia.
  by rewrite launch_training_rounds.
Qed.

(** The loop writes [_start_job] when it returns and at no other time. *)
Lemma launch_training_state fuel : ∀ t,
  match launch_training fuel output w self t with
  | Returned _ s' _ => ∃ j, s' = set_start_job (Some j) self
  | Raised _ s' _ => s' = self
  | OutOfFuel s' _ => s' = self
  end.
Proof.
  induction fuel as [|fuel IH]; intros t; [done|].
  rewrite launch_training_step.
  destruct (w_FineTuningJob_create _ _ _ _) as [j|e]; [by exists j|].
  destruct (isinstance _ e); [apply IH|done].
Qed.

End SubmissionLoop.

(** [finetune] is the upload followed by the submission loop. *)
Lemma finetune_unfold fuel w self t :
  finetune fuel w self t =
    match w_validate_json w (calls is_validate t) (data_path self) with
    | Raise e => Raised e self (t ++ [EvValidateJson (data_path self)])
    | Ok _ =>
      let t1 := t ++ [EvValidateJson (data_path self)] in
      match w_open w (calls is_open t1) (data_path self) "rb" with
      | Raise e => Raised e self (t1 ++ [EvOpen (data_path self) "rb"])
      | Ok f =>
        let t2 := t1 ++ [EvOpen (data_path self) "rb"] in
        let upload :=
          EvFileCreate f "fine-tune" (basename (data_path self)) in
        match w_File_create w (calls is_upload t2) f "fine-tune"
                (basename (data_path self)) with
        | Raise e =>
            Raised e self (t2 ++ [upload; EvClose (data_path self)])
        | Ok output =>
          let t3 :=
            t2 ++ [upload; EvClose (data_path self);
                   EvLogInfo "File uploaded..."]
               ++ (if _verbose self then [EvPrint "File uploaded..."]
                   else []) in
          match launch_training fuel output w self t3 with
          | Returned _ s' t' => Returned tt s' (t' ++ launched_trace self output)
          | Raised e s' t' => Raised e s' t'
          | OutOfFuel s' t' => OutOfFuel s' t'
          end
        end
      end
    end.
Proof.
  cbv beta iota zeta delta
    [finetune bind get_self validate_json with_open py_open File_create
     try_finally call logger_info print when emit ret].
  destruct (w_validate_json _ _ _) as [[]|e]; [|done].
  destruct (w_open _ _ _ _) as [f|e]; [|done].
  destruct (w_File_create _ _ _ _ _) as [output|e];
    [|by rewrite <- !app_assoc].
  unfold launched_trace.
  destruct (_verbose self); simpl; rewrite <- !app_assoc; simpl;
    destruct (launch_training _ _ _ _ _); try done;
    rewrite <- ?app_assoc; done.
Qed.

Lemma finetune_after_upload fuel w self content output :
  uploads w self content output →
  finetune fuel w self [] =
    match launch_training fuel output w self (upload_trace self content) with
    | Returned _ s' t' => Returned tt s' (t' ++ launched_trace self output)
    | Raised e s' t' => Raised e s' t'
    | OutOfFuel s' t' => OutOfFuel s' t'
    end.
Proof.
  intros (Hv & Ho & Hu). rewrite finetune_unfold.
  change (calls is_validate []) with 0%nat. rewrite Hv. cbv zeta.
  change (calls is_open _) with 0%nat. rewrite Ho.
  change (calls is_upload _) with 0%nat. rewrite Hu.
  done.
Qed.

Lemma calls_upload_trace self content :
  calls is_job_create (upload_trace self content) = 0%nat.
Proof. unfold upload_trace. by destruct (_verbose self). Qed.

Lemma sleeps_upload_trace self content : sleeps (upload_trace self content) = [].
Proof. unfold upload_trace. by destruct (_verbose self). Qed.

Lemma calls_launched_trace self output :
  calls is_job_create (launched_trace self output) = 0%nat.
Proof. unfold launched_trace. by destruct (_verbose self). Qed.

Lemma sleeps_launched_trace self output : sleeps (launched_trace self output) = [].
Proof. unfold launched_trace. by destruct (_verbose self). Qed.

(** *** Submission: retry policy *)

(** C1 (as the code has it).  After a successful upload, [finetune] absorbs
    every failure of the job-creation call whose class is
    [InvalidRequestError] -- the class the file-not-ready condition belongs
    to -- by sleeping 60 seconds and calling again, any number of times:
    after [n] such failures and a success it returns with the job of call
    [n] stored, having slept [n] times 60 seconds and called [n + 1] times;
    a failure of any other class at call [n] reaches the caller at once, with
    no further call; and if the endpoint keeps rejecting, no amount of fuel
    makes the loop give up. *)
Theorem finetune_retries_invalid_requests w self content output :
  uploads w self content output →
  let create k :=
    w_FineTuningJob_create w k (file_id output) (base_model self) in
  (∀ n j fuel,
     rejects w self output 0 n → create n = Ok j → (n < fuel)%nat →
     ∃ t, finetune fuel w self [] = Returned tt (set_start_job (Some j) self) t
          ∧ sleeps t = replicate n 60%Z
          ∧ calls is_job_create t = S n)
  ∧ (∀ n e fuel,
       rejects w self output 0 n → create n = Raise e →
       exn_cls e ≠ InvalidRequestError → (n < fuel)%nat →
       ∃ t, finetune fuel w self [] = Raised e self t
            ∧ sleeps t = replicate n 60%Z
            ∧ calls is_job_create t = S n)
  ∧ ((∀ n, rejects w self output 0 n) →
     ∀ fuel, ∃ t, finetune fuel w self [] = OutOfFuel self t
                  ∧ sleeps t = replicate fuel 60%Z).
Proof.
  intros Hup create.
  pose proof (calls_upload_trace self content) as H0.
  pose proof (sleeps_upload_trace self content) as Hs.
  repeat split.
  - intros n j fuel Hrej Hok Hfuel.
    eexists. rewrite (finetune_after_upload _ _ _ _ _ Hup).
    rewrite (launch_training_succeeds w self output n j) by (rewrite ?H0; done).
    split; [reflexivity|].
    rewrite !sleeps_app, !calls_app, Hs, H0, sleeps_retry_rounds,
      calls_retry_rounds, sleeps_launched_trace, calls_launched_trace.
    simpl. rewrite !app_nil_r. split; [done | unfold calls; simpl; lia].
  - intros n e fuel Hrej He Hc Hfuel.
    eexists. rewrite (finetune_after_upload _ _ _ _ _ Hup).
    rewrite (launch_training_propagates w self output n e)
      by (rewrite ?H0; done).
    split; [reflexivity|].
    rewrite !sleeps_app, !calls_app, Hs, H0, sleeps_retry_rounds,
      calls_retry_rounds.
    simpl. rewrite !app_nil_r. split; [done | unfold calls; simpl; lia].
  - intros Hrej fuel.
    eexists. rewrite (finetune_after_upload _ _ _ _ _ Hup).
    rewrite launch_training_never_gives_up by (rewrite H0; done).
    split; [reflexivity|].
    by rewrite sleeps_app, Hs, sleeps_retry_rounds.
Qed.

(** The file is not ready twice, then the job is accepted: two sleeps of 60
    seconds, three calls, and the third answer is stored. *)
Lemma finetune_retries_invalid_requests_witness :
  uploads (world_ready_after 2) fresh_engine "{messages: []}"
    {| file_id := "file-1" |}
  ∧ ∃ t, finetune 3 (world_ready_after 2) fresh_engine []
         = Returned tt (set_start_job (Some job_running) fresh_engine) t
         ∧ sleeps t = [60; 60]%Z
         ∧ calls is_job_create t = 3%nat.
Proof.
  assert (uploads (world_ready_after 2) fresh_engine "{messages: []}"
            {| file_id := "file-1" |}) as Hup by (repeat split).
  split; [exact Hup|].
  apply (proj1 (finetune_retries_invalid_requests _ _ _ _ Hup) 2%nat
           job_running 3%nat).
  - intros k Hk. exists file_not_ready.
    destruct k as [|[|k]]; [by split | by split | lia].
  - reflexivity.
  - lia.
Defined.

(** C1 (as stated) fails.  An invalid request that has nothing to do with the
    uploaded file -- an unknown base model -- is absorbed like any other: the
    loop prints that it waits for the file, sleeps 60 seconds and submits
    again.  Hence no reading of "file not ready" that leaves out some invalid
    request is what the loop retries on. *)
Lemma unknown_model_is_retried :
  exn_cls unknown_model = InvalidRequestError
  ∧ finetune 2 world_unknown_model fresh_engine []
    = Returned tt (set_start_job (Some job_running) fresh_engine)
        [ EvValidateJson "data/train.jsonl";
          EvOpen "data/train.jsonl" "rb";
          EvFileCreate "{messages: []}" "fine-tune" "train.jsonl";
          EvClose "data/train.jsonl";
          EvLogInfo "File uploaded...";
          EvJobCreate "file-1" "gpt-3.5-turbo";
          EvPrint "Waiting for file to be ready...";
          EvSleep 60;
          EvJobCreate "file-1" "gpt-3.5-turbo";
          EvLogInfo
            "Training job file-1 launched. You will be emailed when it's complete." ]
  ∧ ¬ distinguishes_file_not_ready.
Proof.
  split; [reflexivity|]. split; [reflexivity|].
  intros (fnr & (e & Hc & Hf) & Hpol).
  set (w := world_with (fails_then_ok 1 e) job_succeeded None).
  assert (uploads w fresh_engine "{messages: []}" {| file_id := "file-1" |})
    as Hup by (repeat split).
  destruct (Hpol w fresh_engine _ _ e Hup eq_refl Hf 2%nat) as (t & Ht & _);
    [lia|].
  rewrite (finetune_after_upload _ _ _ _ _ Hup) in Ht.
  rewrite (launch_training_succeeds w fresh_engine _ 1 job_running) in Ht.
  - discriminate.
  - intros k Hk. exists e. destruct k; [by split | lia].
  - reflexivity.
  - lia.
Qed.

(** *** Submission: validation comes first *)




(** *** Submission: the stored job *)

(** Once [finetune] returns, the job it stored is the one the endpoint
    answered. *)
Lemma finetune_success_stores_job fuel w self t s' t' :
  finetune fuel w self t = Returned tt s' t' →
  ∃ j, s' = set_start_job (Some j) self.
Proof.
  rewrite finetune_unfold.
  destruct (w_validate_json _ _ _) as [[]|e0]; [|done].
  cbv zeta.
  destruct (w_open _ _ _ _) as [f|e0]; [|done].
  destruct (w_File_create _ _ _ _ _) as [output|e0]; [|done].
  match goal with
  | |- context [launch_training fuel output w self ?t3] =>
      pose proof (launch_training_state w self output fuel t3) as Hst;
      destruct (launch_training fuel output w self t3)
        as [[] s1 t1|e1 s1 t1|s1 t1]
  end; intros; simplify_eq; done.
Qed.

(** C7.  Whenever [finetune] fails -- in the validator, while opening or
    uploading the file, or with a submission failure that is not retried --
    the engine is exactly as it was before the call: [_start_job] holds the
    value it had. *)
Theorem finetune_failure_keeps_start_job fuel w self t e s' t' :
  finetune fuel w self t = Raised e s' t' →
  s' = self ∧ _start_job s' = _start_job self.
Proof.
  rewrite finetune_unfold.
  destruct (w_validate_json _ _ _) as [[]|e0];
    [|intros; simplify_eq; done].
  cbv zeta.
  destruct (w_open _ _ _ _) as [f|e0]; [|intros; simplify_eq; done].
  destruct (w_File_create _ _ _ _ _) as [output|e0];
    [|intros; simplify_eq; done].
  match goal with
  | |- context [launch_training fuel output w self ?t3] =>
      pose proof (launch_training_state w self output fuel t3) as Hst;
      destruct (launch_training fuel output w self t3)
        as [[] s1 t1|e1 s1 t1|s1 t1]
  end; intros; simplify_eq; done.
Qed.

(** An engine that follows an earlier job keeps following it when a new
    submission is refused for a reason that is not retried. *)
Lemma finetune_failure_keeps_start_job_witness :
  finetune 4 (world_rate_limited_after 1)
    (set_start_job (Some job_succeeded) fresh_engine) []
  = Raised rate_limited (set_start_job (Some job_succeeded) fresh_engine)
      (upload_trace fresh_engine "{messages: []}"
       ++ retry_rounds 1 "file-1" "gpt-3.5-turbo"
       ++ [EvJobCreate "file-1" "gpt-3.5-turbo"])
  ∧ _start_job (set_start_job (Some job_succeeded) fresh_engine)
    = Some job_succeeded.
Proof.
  assert (finetune 4 (world_rate_limited_after 1)
            (set_start_job (Some job_succeeded) fresh_engine) []
          = Raised rate_limited (set_start_job (Some job_succeeded) fresh_engine)
              (upload_trace fresh_engine "{messages: []}"
               ++ retry_rounds 1 "file-1" "gpt-3.5-turbo"
               ++ [EvJobCreate "file-1" "gpt-3.5-turbo"])) as Hrun
    by reflexivity.
  split; [exact Hrun|].
  destruct (finetune_failure_keeps_start_job _ _ _ _ _ _ _ Hrun) as [_ Hjob].
  exact Hjob.
Defined.

(** *** Observing the job *)

(** A new engine follows no job unless it is given the id of one, which it
    then fetches at once. *)
Lemma init_start_job base_model data_path verbose start_job_id w t :
  __init__ base_model data_path verbose start_job_id w tt t =
    match start_job_id with
    | None =>
        Returned {| base_model := base_model; data_path := data_path;
                    _verbose := verbose; _start_job := None |} tt t
    | Some id =>
        match w_FineTuningJob_retrieve w (calls is_job_retrieve t) id with
        | Ok j =>
            Returned {| base_model := base_model; data_path := data_path;
                        _verbose := verbose; _start_job := Some j |}
              tt (t ++ [EvJobRetrieve id])
        | Raise e => Raised e tt (t ++ [EvJobRetrieve id])
        end
    end.
Proof.
  unfold __init__, FineTuningJob_retrieve, call.
  destruct start_job_id as [id|]; [|done].
  by destruct (w_FineTuningJob_retrieve _ _ _).
Qed.

(** C3.  Without a stored job, [get_current_job] fails with
    [ValueError("Must call finetune() first")] whatever the other fields of
    the engine, the world and the past are, and does nothing else.  With a
    stored job it asks the provider for the job of the stored id and returns
    the answer (or fails with the provider's failure). *)
Theorem get_current_job_needs_a_job w self t :
  (_start_job self = None →
   get_current_job w self t
   = Raised (Exn ValueError "Must call finetune() first") self t)
  ∧ (∀ start_job, _start_job self = Some start_job →
       get_current_job w self t
       = match w_FineTuningJob_retrieve w (calls is_job_retrieve t)
                 (job_id start_job) with
         | Ok fresh =>
             Returned fresh self (t ++ [EvJobRetrieve (job_id start_job)])
         | Raise e =>
             Raised e self (t ++ [EvJobRetrieve (job_id start_job)])
         end).
Proof.
  split.
  - intros H. unfold get_current_job, bind, get_self. by rewrite H.
  - intros j H.
    cbv beta iota zeta delta
      [get_current_job bind get_self FineTuningJob_retrieve call ret].
    rewrite H. by destruct (w_FineTuningJob_retrieve _ _ _).
Qed.

Lemma get_current_job_needs_a_job_witness :
  (_start_job fresh_engine = None
   ∧ get_current_job (world_retrieving job_succeeded) fresh_engine []
     = Raised (Exn ValueError "Must call finetune() first") fresh_engine [])
  ∧ (_start_job resumed_engine = Some job_running
     ∧ get_current_job (world_retrieving job_succeeded) resumed_engine []
       = Returned job_succeeded resumed_engine [EvJobRetrieve "ftjob-1"]).
Proof.
  split; (split; [reflexivity|]).
  - apply (proj1 (get_current_job_needs_a_job
                    (world_retrieving job_succeeded) fresh_engine [])).
    reflexivity.
  - apply (proj2 (get_current_job_needs_a_job
                    (world_retrieving job_succeeded) resumed_engine [])
             job_running).
    reflexivity.
Defined.

(** [get_current_job], by the stored job and the provider's answer. *)
Lemma get_current_job_unfold w self t :
  get_current_job w self t =
    match _start_job self with
    | None => Raised (Exn ValueError "Must call finetune() first") self t
    | Some start_job =>
        match w_FineTuningJob_retrieve w (calls is_job_retrieve t)
                (job_id start_job) with
        | Ok fresh =>
            Returned fresh self (t ++ [EvJobRetrieve (job_id start_job)])
        | Raise e => Raised e self (t ++ [EvJobRetrieve (job_id start_job)])
        end
    end.
Proof.
  cbv beta iota zeta delta
    [get_current_job bind get_self FineTuningJob_retrieve call ret raise].
  destruct (_start_job self) as [start_job|]; [|done].
  by destruct (w_FineTuningJob_retrieve _ _ _).
Qed.

(** What [get_finetuned_model] does with the snapshot it fetched. *)
Lemma get_finetuned_model_unfold model_kwargs w self t start_job current_job :
  _start_job self = Some start_job →
  w_FineTuningJob_retrieve w (calls is_job_retrieve t) (job_id start_job)
  = Ok current_job →
  get_finetuned_model model_kwargs w self t =
    let t1 := t ++ [EvJobRetrieve (job_id start_job)] in
    match fine_tuned_model current_job with
    | None =>
        Raised (Exn ValueError
                  ("Job " +:+ job_id current_job
                   +:+ " does not have a finetuned model id ready yet."))
          self t1
    | Some model_id =>
        if negb (String.eqb (status current_job) "succeeded") then
          Raised (Exn ValueError
                    ("Job " +:+ job_id current_job +:+ " has status "
                     +:+ status current_job +:+ ", cannot get model"))
            self t1
        else
          match bind_keywords [("model", PStr model_id)] model_kwargs with
          | Raise e => Raised e self t1
          | Ok kwargs =>
              match w_OpenAI w (calls is_factory t1) kwargs with
              | Ok llm => Returned llm self (t1 ++ [EvOpenAI kwargs])
              | Raise e => Raised e self (t1 ++ [EvOpenAI kwargs])
              end
          end
    end.
Proof.
  intros Hjob Hret.
  unfold get_finetuned_model. unfold bind at 1.
  rewrite get_current_job_unfold, Hjob, Hret.
  cbv zeta.
  destruct (fine_tuned_model current_job) as [model_id|]; [|done].
  destruct (negb _); [done|].
  cbv beta iota zeta delta [bind lift_result OpenAI call ret raise].
  destruct (bind_keywords _ _) as [kwargs|e]; [|done].
  by destruct (w_OpenAI _ _ _).
Qed.

(** C4.  When the fetched snapshot has no [fine_tuned_model],
    [get_finetuned_model] fails with the error that the model id is not
    ready yet, whatever the snapshot's status and the extra configuration. *)
Theorem get_finetuned_model_not_ready model_kwargs w self t start_job
    current_job :
  _start_job self = Some start_job →
  w_FineTuningJob_retrieve w (calls is_job_retrieve t) (job_id start_job)
  = Ok current_job →
  fine_tuned_model current_job = None →
  get_finetuned_model model_kwargs w self t
  = Raised (Exn ValueError
              ("Job " +:+ job_id current_job
               +:+ " does not have a finetuned model id ready yet."))
      self (t ++ [EvJobRetrieve (job_id start_job)]).
Proof.
  intros Hjob Hret Hnone.
  rewrite (get_finetuned_model_unfold _ _ _ _ _ _ Hjob Hret). cbv zeta.
  by rewrite Hnone.
Qed.

Lemma get_finetuned_model_not_ready_witness :
  (_start_job resumed_engine = Some job_running
   ∧ w_FineTuningJob_retrieve (world_retrieving job_succeeded_without_model)
       0 "ftjob-1" = Ok job_succeeded_without_model
   ∧ fine_tuned_model job_succeeded_without_model = None)
  ∧ get_finetuned_model decoding_config
      (world_retrieving job_succeeded_without_model) resumed_engine []
    = Raised (Exn ValueError
                "Job ftjob-1 does not have a finetuned model id ready yet.")
        resumed_engine [EvJobRetrieve "ftjob-1"].
Proof.
  split; [repeat split|].
  apply (get_finetuned_model_not_ready decoding_config
           (world_retrieving job_succeeded_without_model) resumed_engine []
           job_running job_succeeded_without_model);
    reflexivity.
Defined.

(** C5.  When the fetched snapshot has a [fine_tuned_model] but a status
    other than ["succeeded"], [get_finetuned_model] fails with the error
    that cites the job id and that very status; the model id does not
    help. *)
Theorem get_finetuned_model_not_succeeded model_kwargs w self t start_job
    current_job model_id :
  _start_job self = Some start_job →
  w_FineTuningJob_retrieve w (calls is_job_retrieve t) (job_id start_job)
  = Ok current_job →
  fine_tuned_model current_job = Some model_id →
  status current_job ≠ "succeeded" →
  get_finetuned_model model_kwargs w self t
  = Raised (Exn ValueError
              ("Job " +:+ job_id current_job +:+ " has status "
               +:+ status current_job +:+ ", cannot get model"))
      self (t ++ [EvJobRetrieve (job_id start_job)]).
Proof.
  intros Hjob Hret Hsome Hstatus.
  rewrite (get_finetuned_model_unfold _ _ _ _ _ _ Hjob Hret). cbv zeta.
  rewrite Hsome. apply String.eqb_neq in Hstatus. by rewrite Hstatus.
Qed.

Lemma get_finetuned_model_not_succeeded_witness :
  (_start_job resumed_engine = Some job_running
   ∧ w_FineTuningJob_retrieve (world_retrieving job_failed_with_model)
       0 "ftjob-1" = Ok job_failed_with_model
   ∧ fine_tuned_model job_failed_with_model = Some "ft:abc123"
   ∧ status job_failed_with_model ≠ "succeeded")
  ∧ get_finetuned_model ∅ (world_retrieving job_failed_with_model)
      resumed_engine []
    = Raised (Exn ValueError "Job ftjob-1 has status failed, cannot get model")
        resumed_engine [EvJobRetrieve "ftjob-1"].
Proof.
  split; [repeat split; discriminate|].
  apply (get_finetuned_model_not_succeeded ∅
           (world_retrieving job_failed_with_model) resumed_engine []
           job_running job_failed_with_model "ft:abc123");
    [reflexivity | reflexivity | reflexivity | discriminate].
Defined.

(** C6 (as the code has it).  When the fetched snapshot has status
    ["succeeded"] and a [fine_tuned_model], and the extra configuration has
    no entry named ["model"], [get_finetuned_model] calls the constructor of
    the model handle once, with [model] bound to that model id and with every
    entry of the extra configuration as it was given, and returns what the
    constructor returns (or fails as the constructor fails). *)
Theorem get_finetuned_model_forwards_config model_kwargs w self t start_job
    current_job model_id :
  _start_job self = Some start_job →
  w_FineTuningJob_retrieve w (calls is_job_retrieve t) (job_id start_job)
  = Ok current_job →
  fine_tuned_model current_job = Some model_id →
  status current_job = "succeeded" →
  model_kwargs !! "model" = None →
  let kwargs := <["model" := PStr model_id]> model_kwargs in
  let t1 := t ++ [EvJobRetrieve (job_id start_job)] in
  get_finetuned_model model_kwargs w self t
  = match w_OpenAI w (calls is_factory t) kwargs with
    | Ok llm => Returned llm self (t1 ++ [EvOpenAI kwargs])
    | Raise e => Raised e self (t1 ++ [EvOpenAI kwargs])
    end
  ∧ kwargs !! "model" = Some (PStr model_id)
  ∧ ∀ k, k ≠ "model" → kwargs !! k = model_kwargs !! k.
Proof.
  intros Hjob Hret Hsome Hstatus Hfree kwargs t1.
  split; [|split].
  - rewrite (get_finetuned_model_unfold _ _ _ _ _ _ Hjob Hret). cbv zeta.
    rewrite Hsome, Hstatus. simpl. rewrite Hfree.
    rewrite calls_snoc. simpl. rewrite Nat.add_0_r. done.
  - subst kwargs. apply lookup_insert_eq.
  - intros k Hk. subst kwargs. by apply lookup_insert_ne.
Qed.

Lemma get_finetuned_model_forwards_config_witness :
  (_start_job resumed_engine = Some job_running
   ∧ w_FineTuningJob_retrieve (world_retrieving job_succeeded) 0 "ftjob-1"
     = Ok job_succeeded
   ∧ fine_tuned_model job_succeeded = Some "ft:abc123"
   ∧ status job_succeeded = "succeeded"
   ∧ decoding_config !! "model" = None)
  ∧ get_finetuned_model decoding_config (world_retrieving job_succeeded)
      resumed_engine []
    = Returned
        {| llm_fields := <["model" := PStr "ft:abc123"]> decoding_config |}
        resumed_engine
        [ EvJobRetrieve "ftjob-1";
          EvOpenAI (<["model" := PStr "ft:abc123"]> decoding_config) ].
Proof.
  split; [repeat split|].
  apply (get_finetuned_model_forwards_config decoding_config
           (world_retrieving job_succeeded) resumed_engine []
           job_running job_succeeded "ft:abc123");
    reflexivity.
Defined.

(** C6 (as stated) fails.  Extra configuration that contains an entry named
    ["model"] is not forwarded: the keyword collides with the model id at the
    call of the constructor, which therefore never runs, and the caller gets
    a [TypeError] instead of a model handle. *)
Lemma config_naming_a_model_is_refused :
  status job_succeeded = "succeeded"
  ∧ fine_tuned_model job_succeeded = Some "ft:abc123"
  ∧ get_finetuned_model config_naming_a_model
      (world_retrieving job_succeeded) resumed_engine []
    = Raised
        (Exn TypeError "got multiple values for keyword argument 'model'")
        resumed_engine [EvJobRetrieve "ftjob-1"].
Proof. repeat split. Qed.

End FinetuneProperties.

(** * Properties of the Azure deployment wrapper *)

Module AzureProperties.
Import AzureOpenAI Scenarios.

(** [validate_env], check by check. *)
Lemma validate_env_unfold {S} (w : world) (s : S) (t : trace) :
  validate_env w s t =
    let t1 := t ++ [EvImport "openai"] in
    match w_openai w with
    | None =>
        Raised (Exn ImportError
                  "You must install the `openai` package to use Azure OpenAI.")
          s t1
    | Some openai =>
        if String.eqb (api_base openai) "https://api.openai.com/v1" then
          Raised (Exn ValueError
                    ("You must set OPENAI_API_BASE to your Azure endpoint. "
                     +:+ "It should look like https://YOUR_RESOURCE_NAME.openai.azure.com/"))
            s t1
        else if negb (str_in (api_type openai) ["azure"; "azure_ad"; "azuread"])
        then
          Raised (Exn ValueError
                    ("You must set OPENAI_API_TYPE to one of "
                     +:+ "(`azure`, `azuread`, `azure_ad`) for Azure OpenAI."))
            s t1
        else
          match api_version openai with
          | None =>
              Raised (Exn ValueError
                        "You must set OPENAI_API_VERSION for Azure OpenAI.")
                s t1
          | Some _ => Returned tt s t1
          end
    end.
Proof.
  cbv beta iota zeta delta
    [validate_env try_except bind import_openai when raise ret].
  destruct (w_openai w) as [openai|]; [|done].
  destruct (String.eqb (api_base openai) _); [done|].
  destruct (negb _); [done|].
  by destruct (api_version openai).
Qed.

(** The credential plays no part in [validate_env]. *)
Lemma validate_env_ignores_api_key {S} (w w' : world) (s : S) (t : trace)
    base type version key key' :
  w_openai w = Some {| api_base := base; api_type := type;
                       api_version := version; api_key := key |} →
  w_openai w' = Some {| api_base := base; api_type := type;
                        api_version := version; api_key := key' |} →
  validate_env w s t = validate_env w' s t.
Proof. intros H H'. rewrite !validate_env_unfold, H, H'. done. Qed.

(** C8.  Without an [engine], [__init__] fails with
    [ValueError("You must specify an `engine` parameter.")] and has done
    nothing by then: the trace is the one it started with, so the [openai]
    module was not imported, no setting was looked at, the parent constructor
    was not called and no request was made -- whatever the other arguments
    and the ambient settings are. *)
Theorem init_requires_engine a w t :
  a_engine a = None →
  __init__ a w tt t
  = Raised (Exn ValueError "You must specify an `engine` parameter.") tt t.
Proof. intros H. unfold __init__. by rewrite H. Qed.

Lemma init_requires_engine_witness :
  a_engine default_args = None
  ∧ __init__ default_args world_without_openai tt []
    = Raised (Exn ValueError "You must specify an `engine` parameter.") tt [].
Proof.
  split; [reflexivity|].
  apply (init_requires_engine default_args world_without_openai []).
  reflexivity.
Defined.

(** C10.  Whenever [_model_kwargs] produces a mapping, that mapping has no
    ["model"] entry, has the instance's [engine] under ["engine"], and agrees
    with the parent's mapping on every other key; and it does produce one
    whenever the parent's mapping has a ["model"] entry to remove. *)
Theorem model_kwargs_routes_to_engine (super_model_kwargs : LLM → gmap string pyval)
    (self : instance) :
  (∀ kwargs,
     _model_kwargs super_model_kwargs self = Ok kwargs →
     kwargs !! "model" = None
     ∧ kwargs !! "engine" = Some (PStr (engine self))
     ∧ ∀ k, k ≠ "model" → k ≠ "engine" →
            kwargs !! k = super_model_kwargs (parent self) !! k)
  ∧ (is_Some (super_model_kwargs (parent self) !! "model") →
     ∃ kwargs, _model_kwargs super_model_kwargs self = Ok kwargs).
Proof.
  unfold _model_kwargs, dict_pop. split.
  - intros kwargs H.
    destruct (super_model_kwargs (parent self) !! "model"); [|done].
    simplify_eq. repeat split.
    + rewrite lookup_insert_ne by done. apply lookup_delete_eq.
    + apply lookup_insert_eq.
    + intros k Hm He. rewrite lookup_insert_ne by done.
      by apply lookup_delete_ne.
  - intros [v Hv]. rewrite Hv. eauto.
Qed.

Lemma model_kwargs_routes_to_engine_witness :
  is_Some (fields_as_request (parent azure_instance) !! "model")
  ∧ ∃ kwargs,
      _model_kwargs fields_as_request azure_instance = Ok kwargs
      ∧ kwargs !! "model" = None
      ∧ kwargs !! "engine" = Some (PStr "my-deployment")
      ∧ ∀ k, k ≠ "model" → k ≠ "engine" →
             kwargs !! k = fields_as_request (parent azure_instance) !! k.
Proof.
  assert (is_Some (fields_as_request (parent azure_instance) !! "model"))
    as Hmodel by (eexists; reflexivity).
  split; [exact Hmodel|].
  destruct (model_kwargs_routes_to_engine fields_as_request azure_instance)
    as [Hshape Htotal].
  destruct (Htotal Hmodel) as [kwargs Hk].
  exists kwargs. split; [exact Hk|]. exact (Hshape kwargs Hk).
Defined.

End AzureProperties.

(** * Further properties of the finetuning orchestrator *)

Module FinetuneRuns.
Import OpenAIFinetuneEngine Scenarios Observations Views FinetuneProperties.

Lemma rejects_cons w self output from n e :
  w_FineTuningJob_create w from (file_id output) (base_model self) = Raise e →
  exn_cls e = InvalidRequestError →
  rejects w self output (S from) n →
  rejects w self output from (S n).
Proof.
  intros He Hc Hrej k Hk. destruct k as [|k].
  - exists e. by rewrite Nat.add_0_r.
  - destruct (Hrej k) as (e' & He' & Hc'); [lia|].
    exists e'. split; [|done].
    by replace (from + S k)%nat with (S from + k)%nat by lia.
Qed.

Lemma rejects_le w self output from n m :
  (m ≤ n)%nat → rejects w self output from n → rejects w self output from m.
Proof. intros Hle Hrej k Hk. apply Hrej. lia. Qed.

(** Rejections are told by the world alone: two engines with the same base
    model are rejected alike. *)
Lemma rejects_same_model w self self' output from n :
  base_model self = base_model self' →
  rejects w self output from n → rejects w self' output from n.
Proof. intros Hm Hrej k Hk. rewrite <- Hm. by apply Hrej. Qed.

(** The submission loop ends in exactly one of three ways, each after a
    number of rejected rounds. *)
Lemma launch_training_shape w self output fuel : ∀ t,
  let from := calls is_job_create t in
  let rounds n := retry_rounds n (file_id output) (base_model self) in
  let submitted := EvJobCreate (file_id output) (base_model self) in
  match launch_training fuel output w self t with
  | Returned _ s' t' =>
      ∃ n j, (n < fuel)%nat ∧ rejects w self output from n
             ∧ w_FineTuningJob_create w (from + n) (file_id output)
                 (base_model self) = Ok j
             ∧ s' = set_start_job (Some j) self
             ∧ t' = t ++ rounds n ++ [submitted]
  | Raised e s' t' =>
      ∃ n, (n < fuel)%nat ∧ rejects w self output from n
           ∧ w_FineTuningJob_create w (from + n) (file_id output)
               (base_model self) = Raise e
           ∧ exn_cls e ≠ InvalidRequestError
           ∧ s' = self
           ∧ t' = t ++ rounds n ++ [submitted]
  | OutOfFuel s' t' =>
      rejects w self output from fuel ∧ s' = self ∧ t' = t ++ rounds fuel
  end.
Proof.
  induction fuel as [|fuel IH]; intros t; cbv zeta.
  - simpl. unfold out_of_fuel. split; [intros k Hk; lia|].
    by rewrite app_nil_r.
  - rewrite launch_training_step.
    destruct (w_FineTuningJob_create w (calls is_job_create t) _ _)
      as [j|e] eqn:Hc.
    + exists 0%nat, j. rewrite Nat.add_0_r. repeat split; try done; try lia.
      intros k Hk; lia.
    + unfold isinstance. case_bool_decide as Hcls.
      * specialize (IH (t ++ retry_round (file_id output) (base_model self))).
        cbv zeta in IH. rewrite calls_app in IH.
        change (calls is_job_create (retry_round _ _)) with 1%nat in IH.
        replace (calls is_job_create t + 1)%nat
          with (S (calls is_job_create t)) in IH by lia.
        destruct (launch_training fuel output w self _)
          as [[] s' t'|e' s' t'|s' t'].
        -- destruct IH as (n & j & Hn & Hrej & Hok & Hs & Ht).
           exists (S n), j. repeat split; try done; try lia.
           ++ by eapply rejects_cons.
           ++ by replace (calls is_job_create t + S n)%nat
                with (S (calls is_job_create t) + n)%nat by lia.
           ++ rewrite Ht. simpl. by rewrite <- app_assoc.
        -- destruct IH as (n & Hn & Hrej & He & Hne & Hs & Ht).
           exists (S n). repeat split; try done; try lia.
           ++ by eapply rejects_cons.
           ++ by replace (calls is_job_create t + S n)%nat
                with (S (calls is_job_create t) + n)%nat by lia.
           ++ rewrite Ht. simpl. by rewrite <- app_assoc.
        -- destruct IH as (Hrej & Hs & Ht).
           repeat split; try done.
           ++ by eapply rejects_cons.
           ++ rewrite Ht. simpl. by rewrite <- app_assoc.
      * exists 0%nat. rewrite Nat.add_0_r.
        repeat split; try done; try lia.
        intros k Hk; lia.
Qed.

(** Every run of [finetune] in a fresh process ends in one of six ways:
    rejected by the validator; the file cannot be opened; the upload fails
    (and the file is closed); a job is launched after some rejected rounds;
    a submission fails for a reason that is not retried; or the endpoint is
    still rejecting when the fuel is spent.  Each way fixes the whole trace
    and the final engine. *)
Lemma finetune_runs fuel w self :
  finetune_run w self (finetune fuel w self []).
Proof.
  rewrite finetune_unfold. change (calls is_validate []) with 0%nat.
  destruct (w_validate_json w 0 _) as [[]|e] eqn:Hv; [|by apply run_invalid].
  cbv zeta. change (calls is_open _) with 0%nat.
  destruct (w_open w 0 _ _) as [content|e] eqn:Ho;
    [|by apply run_unreadable].
  change (calls is_upload _) with 0%nat.
  destruct (w_File_create w 0 _ _ _) as [output|e] eqn:Hu;
    [|by eapply run_upload_failed].
  assert (uploads w self content output) as Hup by done.
  match goal with
  | |- context [launch_training fuel output w self ?t3] =>
      change t3 with (upload_trace self content)
  end.
  pose proof (launch_training_shape w self output fuel
                (upload_trace self content)) as Hshape.
  cbv zeta in Hshape. rewrite calls_upload_trace in Hshape.
  destruct (launch_training fuel output w self _)
    as [[] s' t'|e s' t'|s' t'].
  - destruct Hshape as (n & j & _ & Hrej & Hok & -> & ->).
    rewrite <- !app_assoc. by eapply run_launched.
  - destruct Hshape as (n & _ & Hrej & He & Hne & -> & ->).
    by eapply run_refused.
  - destruct Hshape as (Hrej & -> & ->). by eapply run_waiting.
Qed.

(** Moving the loop to another engine with the same base model and to
    another past with as many submissions changes nothing but the engine and
    the past. *)
Lemma launch_training_transport w self self' output fuel t t' :
  base_model self = base_model self' →
  calls is_job_create t = calls is_job_create t' →
  match launch_training fuel output w self t with
  | Returned a s1 t1 =>
      ∃ j d, s1 = set_start_job (Some j) self ∧ t1 = t ++ d
             ∧ launch_training fuel output w self' t'
               = Returned a (set_start_job (Some j) self') (t' ++ d)
  | Raised e s1 t1 =>
      ∃ d, s1 = self ∧ t1 = t ++ d
           ∧ launch_training fuel output w self' t' = Raised e self' (t' ++ d)
  | OutOfFuel s1 t1 =>
      ∃ d, s1 = self ∧ t1 = t ++ d
           ∧ launch_training fuel output w self' t' = OutOfFuel self' (t' ++ d)
  end.
Proof.
  intros Hm Hc.
  pose proof (launch_training_shape w self output fuel t) as Hshape.
  cbv zeta in Hshape.
  destruct (launch_training fuel output w self t) as [[] s1 t1|e s1 t1|s1 t1].
  - destruct Hshape as (n & j & Hn & Hrej & Hok & -> & ->).
    exists j. eexists. split; [done|]. split; [done|].
    rewrite (launch_training_succeeds w self' output n j).
    + by rewrite <- Hm.
    + rewrite <- Hc. by eapply rejects_same_model.
    + by rewrite <- Hc, <- Hm.
    + done.
  - destruct Hshape as (n & Hn & Hrej & He & Hne & -> & ->).
    eexists. split; [done|]. split; [done|].
    rewrite (launch_training_propagates w self' output n e).
    + by rewrite <- Hm.
    + rewrite <- Hc. by eapply rejects_same_model.
    + by rewrite <- Hc, <- Hm.
    + done.
    + done.
  - destruct Hshape as (Hrej & -> & ->).
    eexists. split; [done|]. split; [done|].
    replace fuel with (fuel + 0)%nat at 1 by lia.
    rewrite launch_training_rounds.
    + by rewrite <- Hm.
    + rewrite <- Hc. by eapply rejects_same_model.
Qed.

Lemma calls_retry_rounds_other p n f m :
  p (EvJobCreate f m) = false →
  p (EvPrint "Waiting for file to be ready...") = false →
  p (EvSleep 60) = false →
  calls p (retry_rounds n f m) = 0%nat.
Proof.
  intros H1 H2 H3. induction n as [|n IH]; [done|].
  change (retry_rounds (S n) f m) with (retry_round f m ++ retry_rounds n f m).
  rewrite calls_app, IH.
  change (retry_round f m)
    with ((([] ++ [EvJobCreate f m])
           ++ [EvPrint "Waiting for file to be ready..."]) ++ [EvSleep 60]).
  rewrite !calls_snoc, H1, H2, H3. done.
Qed.

Lemma elem_of_retry_rounds ev n f m :
  ev ∈ retry_rounds n f m →
  ev = EvJobCreate f m ∨ ev = EvPrint "Waiting for file to be ready..."
  ∨ ev = EvSleep 60.
Proof.
  induction n as [|n IH]; simpl; [by intros ?%elem_of_nil|].
  rewrite !elem_of_cons. intros [->|[->|[->|Hin]]]; auto.
Qed.

Lemma elem_of_upload_trace ev self content :
  ev ∈ upload_trace self content → is_job_create ev = false.
Proof.
  unfold upload_trace. intros Hin.
  apply elem_of_app in Hin as [Hin|Hin].
  - rewrite !elem_of_cons, elem_of_nil in Hin.
    destruct Hin as [->|[->|[->|[->|[->|[]]]]]]; done.
  - destruct (_verbose self).
    + apply list_elem_of_singleton in Hin. by subst.
    + by apply elem_of_nil in Hin.
Qed.

Lemma elem_of_launched_trace ev self output :
  ev ∈ launched_trace self output → is_job_create ev = false.
Proof.
  unfold launched_trace. intros Hin.
  apply elem_of_cons in Hin as [->|Hin]; [done|].
  destruct (_verbose self).
  - apply list_elem_of_singleton in Hin. by subst.
  - by apply elem_of_nil in Hin.
Qed.

(** X2.  A job-creation request is sent only after the dataset has been
    validated, opened and uploaded, and every such request names the id the
    upload returned and the engine's base model. *)
Theorem finetune_submits_what_it_uploaded fuel w self ev :
  ev ∈ outcome_trace (finetune fuel w self []) →
  is_job_create ev = true →
  ∃ content output,
    uploads w self content output
    ∧ ev = EvJobCreate (file_id output) (base_model self).
Proof.
  intros Hin Hjc.
  destruct (finetune_runs fuel w self)
    as [e Hv|e Hv Ho|content e Hv Ho Hu|content output n j Hup Hrej Hok
        |content output n e Hup Hrej He Hne|content output n Hup Hrej];
    cbn [outcome_trace] in Hin.
  - apply list_elem_of_singleton in Hin. by subst.
  - rewrite !elem_of_cons, elem_of_nil in Hin.
    destruct Hin as [->|[->|[]]]; done.
  - rewrite !elem_of_cons, elem_of_nil in Hin.
    destruct Hin as [->|[->|[->|[->|[]]]]]; done.
  - exists content, output. split; [done|].
    rewrite !elem_of_app, list_elem_of_singleton in Hin.
    destruct Hin as [Hin|[Hin|[Hin|Hin]]]; [| |done|].
    + apply elem_of_upload_trace in Hin. congruence.
    + apply elem_of_retry_rounds in Hin.
      destruct Hin as [-> | [-> | ->]]; done.
    + apply elem_of_launched_trace in Hin. congruence.
  - exists content, output. split; [done|].
    rewrite !elem_of_app, list_elem_of_singleton in Hin.
    destruct Hin as [Hin|[Hin|Hin]]; [| |done].
    + apply elem_of_upload_trace in Hin. congruence.
    + apply elem_of_retry_rounds in Hin.
      destruct Hin as [-> | [-> | ->]]; done.
  - exists content, output. split; [done|].
    rewrite !elem_of_app in Hin.
    destruct Hin as [Hin|Hin].
    + apply elem_of_upload_trace in Hin. congruence.
    + apply elem_of_retry_rounds in Hin.
      destruct Hin as [-> | [-> | ->]]; done.
Qed.

Lemma finetune_submits_what_it_uploaded_witness :
  (EvJobCreate "file-1" "gpt-3.5-turbo"
     ∈ outcome_trace (finetune 3 (world_ready_after 2) fresh_engine [])
   ∧ is_job_create (EvJobCreate "file-1" "gpt-3.5-turbo") = true)
  ∧ ∃ content output,
      uploads (world_ready_after 2) fresh_engine content output
      ∧ EvJobCreate "file-1" "gpt-3.5-turbo"
        = EvJobCreate (file_id output) (base_model fresh_engine).
Proof.
  assert (EvJobCreate "file-1" "gpt-3.5-turbo"
            ∈ outcome_trace (finetune 3 (world_ready_after 2) fresh_engine []))
    as Hin.
  { vm_compute. do 5 apply list_elem_of_further. apply list_elem_of_here. }
  split; [split; [exact Hin | reflexivity]|].
  exact (finetune_submits_what_it_uploaded 3 (world_ready_after 2)
           fresh_engine _ Hin eq_refl).
Defined.

(** X3.  Once the dataset file has been opened, the run starts with
    validation, [open], the upload and the closing of the file, in this
    order, whatever the upload answers; nothing is uploaded and nothing is
    closed after that. *)
Theorem finetune_closes_the_file fuel w self content :
  w_validate_json w 0 (data_path self) = Ok tt →
  w_open w 0 (data_path self) "rb" = Ok content →
  ∃ rest,
    outcome_trace (finetune fuel w self [])
    = [ EvValidateJson (data_path self);
        EvOpen (data_path self) "rb";
        EvFileCreate content "fine-tune" (basename (data_path self));
        EvClose (data_path self) ] ++ rest
    ∧ calls is_close rest = 0%nat
    ∧ calls is_upload rest = 0%nat.
Proof.
  intros Hv Ho.
  assert (∀ rest,
            upload_trace self content ++ rest
            = [ EvValidateJson (data_path self);
                EvOpen (data_path self) "rb";
                EvFileCreate content "fine-tune" (basename (data_path self));
                EvClose (data_path self) ]
              ++ (EvLogInfo "File uploaded..."
                  :: (if _verbose self then [EvPrint "File uploaded..."]
                      else []))
              ++ rest) as Hsplit.
  { intros rest. unfold upload_trace. by rewrite <- app_assoc. }
  destruct (finetune_runs fuel w self)
    as [e Hv'|e Hv' Ho'|content' e Hv' Ho' Hu|content' output n j Hup Hrej Hok
        |content' output n e Hup Hrej He Hne|content' output n Hup Hrej];
    cbn [outcome_trace]; try congruence.
  - exists []. assert (content' = content) as -> by congruence.
    by repeat split.
  - destruct Hup as (_ & Ho' & _).
    assert (content' = content) as -> by congruence.
    rewrite Hsplit. eexists. split; [reflexivity|].
    unfold launched_trace.
    rewrite !calls_app, !calls_retry_rounds_other by done.
    destruct (_verbose self); done.
  - destruct Hup as (_ & Ho' & _).
    assert (content' = content) as -> by congruence.
    rewrite Hsplit. eexists. split; [reflexivity|].
    rewrite !calls_app, !calls_retry_rounds_other by done.
    destruct (_verbose self); done.
  - destruct Hup as (_ & Ho' & _).
    assert (content' = content) as -> by congruence.
    rewrite Hsplit. eexists. split; [reflexivity|].
    rewrite !calls_app, !calls_retry_rounds_other by done.
    destruct (_verbose self); done.
Qed.

Lemma finetune_closes_the_file_witness :
  (w_validate_json world_upload_down 0 (data_path fresh_engine) = Ok tt
   ∧ w_open world_upload_down 0 (data_path fresh_engine) "rb"
     = Ok "{messages: []}")
  ∧ ∃ rest,
      outcome_trace (finetune 3 world_upload_down fresh_engine [])
      = [ EvValidateJson (data_path fresh_engine);
          EvOpen (data_path fresh_engine) "rb";
          EvFileCreate "{messages: []}" "fine-tune"
            (basename (data_path fresh_engine));
          EvClose (data_path fresh_engine) ] ++ rest
      ∧ calls is_close rest = 0%nat
      ∧ calls is_upload rest = 0%nat.
Proof.
  split; [split; reflexivity|].
  apply (finetune_closes_the_file 3 world_upload_down fresh_engine);
    reflexivity.
Defined.


Lemma prints_app t u : prints (t ++ u) = prints t ++ prints u.
Proof.
  induction t as [|ev t IH]; [done|].
  destruct ev; simpl; rewrite ?IH; done.
Qed.

Lemma prints_retry_rounds n f m :
  prints (retry_rounds n f m) = replicate n "Waiting for file to be ready...".
Proof. induction n as [|n IH]; [done|]. simpl. by rewrite IH. Qed.

Lemma without_prints_app t u :
  without_prints (t ++ u) = without_prints t ++ without_prints u.
Proof.
  induction t as [|ev t IH]; [done|].
  destruct ev; simpl; rewrite ?IH; done.
Qed.

(** X5.  What a launched run prints: the notice that it waits for the
    file, once for every rejected submission and whether or not the engine
    is verbose; around these, and only for a verbose engine, the message
    that the file is uploaded and the message that the training job is
    launched, which cites the id of the uploaded file. *)
Theorem finetune_console_output w self content output n j fuel :
  uploads w self content output →
  rejects w self output 0 n →
  w_FineTuningJob_create w n (file_id output) (base_model self) = Ok j →
  (n < fuel)%nat →
  prints (outcome_trace (finetune fuel w self []))
  = (if _verbose self then ["File uploaded..."] else [])
    ++ replicate n "Waiting for file to be ready..."
    ++ (if _verbose self
        then ["Training job " +:+ file_id output +:+ " launched. "
              +:+ "You will be emailed when it's complete."]
        else []).
Proof.
  intros Hup Hrej Hok Hfuel.
  rewrite (finetune_after_upload _ _ _ _ _ Hup).
  rewrite (launch_training_succeeds w self output n j)
    by (rewrite ?calls_upload_trace; done).
  cbn [outcome_trace]. rewrite !prints_app, prints_retry_rounds.
  unfold upload_trace, launched_trace.
  destruct (_verbose self); simpl; by rewrite ?app_nil_r.
Qed.

Lemma finetune_console_output_witness :
  (uploads (world_ready_after 2) fresh_engine "{messages: []}"
     {| file_id := "file-1" |}
   ∧ rejects (world_ready_after 2) fresh_engine {| file_id := "file-1" |} 0 2
   ∧ w_FineTuningJob_create (world_ready_after 2) 2 "file-1" "gpt-3.5-turbo"
     = Ok job_running
   ∧ (2 < 3)%nat)
  ∧ prints (outcome_trace (finetune 3 (world_ready_after 2) fresh_engine []))
    = [ "Waiting for file to be ready...";
        "Waiting for file to be ready..." ].
Proof.
  assert (rejects (world_ready_after 2) fresh_engine
            {| file_id := "file-1" |} 0 2) as Hrej.
  { intros k Hk. exists file_not_ready.
    destruct k as [|[|k]]; [by split | by split | lia]. }
  split; [repeat split; [exact Hrej | lia]|].
  apply (finetune_console_output (world_ready_after 2) fresh_engine
           "{messages: []}" {| file_id := "file-1" |} 2 job_running 3);
    [repeat split | exact Hrej | reflexivity | lia].
Defined.

(** X6.  The verbose flag changes what is printed and nothing else: a
    verbose and a silent engine that are otherwise equal end the same way
    (same result or exception, same stored job), and their traces differ
    by prints alone. *)
Theorem verbose_only_adds_prints fuel w self t :
  match finetune fuel w (set_verbose false self) t,
        finetune fuel w (set_verbose true self) t with
  | Returned _ s1 t1, Returned _ s2 t2 =>
      s2 = set_verbose true s1 ∧ without_prints t2 = without_prints t1
  | Raised e1 s1 t1, Raised e2 s2 t2 =>
      e2 = e1 ∧ s2 = set_verbose true s1
      ∧ without_prints t2 = without_prints t1
  | OutOfFuel s1 t1, OutOfFuel s2 t2 =>
      s2 = set_verbose true s1 ∧ without_prints t2 = without_prints t1
  | _, _ => False
  end.
Proof.
  rewrite !finetune_unfold.
  cbn [set_verbose data_path base_model _verbose _start_job].
  destruct (w_validate_json _ _ _) as [[]|e]; [|done].
  cbv zeta.
  destruct (w_open _ _ _ _) as [f|e]; [|done].
  destruct (w_File_create _ _ _ _ _) as [output|e]; [|done].
  match goal with
  | |- context [launch_training fuel output w (set_verbose false self) ?tq] =>
    match goal with
    | |- context [launch_training fuel output w (set_verbose true self) ?tl] =>
        pose proof (launch_training_transport w (set_verbose false self)
                      (set_verbose true self) output fuel tq tl eq_refl) as Ht
    end
  end.
  rewrite app_nil_r in *.
  lapply Ht; [clear Ht; intros Ht|by rewrite !calls_app].
  destruct (launch_training fuel output w (set_verbose false self) _)
    as [[] s1 t1|e1 s1 t1|s1 t1].
  - destruct Ht as (j & d & -> & -> & ->). split; [done|].
    unfold launched_trace. cbn [set_verbose _verbose].
    rewrite !without_prints_app. simpl. by rewrite ?app_nil_r.
  - destruct Ht as (d & -> & -> & ->). repeat split.
    rewrite !without_prints_app. simpl. by rewrite ?app_nil_r.
  - destruct Ht as (d & -> & -> & ->). repeat split.
    rewrite !without_prints_app. simpl. by rewrite ?app_nil_r.
Qed.

(** X7.  A job stored earlier neither prevents nor influences a new
    submission: [finetune] makes the same calls and ends the same way
    whatever [_start_job] holds, replaces it when it returns and leaves it
    alone when it fails. *)
Theorem finetune_ignores_stored_job fuel w self t old :
  match finetune fuel w self t with
  | Returned a s' t' =>
      finetune fuel w (set_start_job old self) t = Returned a s' t'
  | Raised e s' t' =>
      finetune fuel w (set_start_job old self) t
      = Raised e (set_start_job old self) t'
  | OutOfFuel s' t' =>
      finetune fuel w (set_start_job old self) t
      = OutOfFuel (set_start_job old self) t'
  end.
Proof.
  rewrite !finetune_unfold.
  cbn [set_start_job data_path base_model _verbose _start_job].
  destruct (w_validate_json _ _ _) as [[]|e]; [|done].
  cbv zeta.
  destruct (w_open _ _ _ _) as [f|e]; [|done].
  destruct (w_File_create _ _ _ _ _) as [output|e]; [|done].
  match goal with
  | |- context [launch_training fuel output w self ?t3] =>
      pose proof (launch_training_transport w self (set_start_job old self)
                    output fuel t3 t3 eq_refl eq_refl) as Ht;
      destruct (launch_training fuel output w self t3)
        as [[] s1 t1|e1 s1 t1|s1 t1]
  end.
  - destruct Ht as (j & d & -> & -> & ->). done.
  - destruct Ht as (d & -> & -> & ->). done.
  - destruct Ht as (d & -> & -> & ->). done.
Qed.

(** X1.  The submission loop is the only place where [finetune] can fail
    to come back, and only while the endpoint keeps rejecting: a run that has
    spent its fuel has validated and uploaded the dataset, has seen every
    one of its submissions rejected as an invalid request, has slept 60
    seconds after each of them and has left the engine as it was. *)
Theorem finetune_blocks_only_on_rejections fuel w self s' t' :
  finetune fuel w self [] = OutOfFuel s' t' →
  ∃ content output,
    uploads w self content output
    ∧ rejects w self output 0 fuel
    ∧ s' = self
    ∧ sleeps t' = replicate fuel 60%Z.
Proof.
  intros Hrun.
  destruct (w_validate_json w 0 (data_path self)) as [[]|e] eqn:Hv.
  2: { rewrite finetune_unfold in Hrun.
       change (calls is_validate []) with 0%nat in Hrun.
       by rewrite Hv in Hrun. }
  destruct (w_open w 0 (data_path self) "rb") as [content|e] eqn:Ho.
  2: { rewrite finetune_unfold in Hrun.
       change (calls is_validate []) with 0%nat in Hrun.
       rewrite Hv in Hrun. cbv zeta in Hrun.
       change (calls is_open _) with 0%nat in Hrun.
       by rewrite Ho in Hrun. }
  destruct (w_File_create w 0 content "fine-tune" (basename (data_path self)))
    as [output|e] eqn:Hu.
  2: { rewrite finetune_unfold in Hrun.
       change (calls is_validate []) with 0%nat in Hrun.
       rewrite Hv in Hrun. cbv zeta in Hrun.
       change (calls is_open _) with 0%nat in Hrun.
       rewrite Ho in Hrun.
       change (calls is_upload _) with 0%nat in Hrun.
       by rewrite Hu in Hrun. }
  assert (uploads w self content output) as Hup by done.
  exists content, output. split; [done|].
  rewrite (finetune_after_upload _ _ _ _ _ Hup) in Hrun.
  pose proof (launch_training_shape w self output fuel
                (upload_trace self content)) as Hshape.
  cbv zeta in Hshape. rewrite calls_upload_trace in Hshape.
  destruct (launch_training fuel output w self (upload_trace self content))
    as [[] s1 t1|e1 s1 t1|s1 t1]; try discriminate.
  destruct Hshape as (Hrej & Hs & Ht).
  assert (s' = s1) as -> by congruence.
  assert (t' = t1) as -> by congruence.
  subst s1 t1. split; [done|]. split; [done|].
  by rewrite sleeps_app, sleeps_upload_trace, sleeps_retry_rounds.
Qed.

Lemma finetune_blocks_only_on_rejections_witness :
  finetune 2 (world_ready_after 2) fresh_engine []
  = OutOfFuel fresh_engine
      (upload_trace fresh_engine "{messages: []}"
       ++ retry_rounds 2 "file-1" "gpt-3.5-turbo")
  ∧ ∃ content output,
      uploads (world_ready_after 2) fresh_engine content output
      ∧ rejects (world_ready_after 2) fresh_engine output 0 2
      ∧ fresh_engine = fresh_engine
      ∧ sleeps (upload_trace fresh_engine "{messages: []}"
                ++ retry_rounds 2 "file-1" "gpt-3.5-turbo")
        = replicate 2 60%Z.
Proof.
  assert (finetune 2 (world_ready_after 2) fresh_engine []
          = OutOfFuel fresh_engine
              (upload_trace fresh_engine "{messages: []}"
               ++ retry_rounds 2 "file-1" "gpt-3.5-turbo")) as Hrun
    by reflexivity.
  split; [exact Hrun|].
  exact (finetune_blocks_only_on_rejections _ _ _ _ _ Hrun).
Defined.

(** More fuel never changes how the loop ends. *)
Lemma launch_training_more_fuel w self output fuel fuel' t :
  (fuel ≤ fuel')%nat →
  match launch_training fuel output w self t with
  | OutOfFuel _ _ => True
  | o => launch_training fuel' output w self t = o
  end.
Proof.
  intros Hle.
  pose proof (launch_training_shape w self output fuel t) as Hshape.
  cbv zeta in Hshape.
  destruct (launch_training fuel output w self t)
    as [[] s1 t1|e s1 t1|s1 t1]; [| |done].
  - destruct Hshape as (n & j & Hn & Hrej & Hok & -> & ->).
    apply launch_training_succeeds; [done | done | lia].
  - destruct Hshape as (n & Hn & Hrej & He & Hne & -> & ->).
    apply launch_training_propagates; [done | done | done | lia].
Qed.

(** The result of [finetune] does not depend on the fuel: once a run
    returns or raises, every run with more fuel returns or raises the same,
    with the same engine and the same trace. *)
Lemma finetune_enough_fuel fuel fuel' w self t :
  (fuel ≤ fuel')%nat →
  match finetune fuel w self t with
  | OutOfFuel _ _ => True
  | o => finetune fuel' w self t = o
  end.
Proof.
  intros Hle. rewrite !finetune_unfold.
  destruct (w_validate_json _ _ _) as [[]|e]; [|done].
  cbv zeta.
  destruct (w_open _ _ _ _) as [f|e]; [|done].
  destruct (w_File_create _ _ _ _ _) as [output|e]; [|done].
  match goal with
  | |- context [launch_training fuel output w self ?t3] =>
      pose proof (launch_training_more_fuel w self output fuel fuel' t3 Hle)
        as Hmore;
      destruct (launch_training fuel output w self t3)
        as [[] s1 t1|e1 s1 t1|s1 t1]
  end; [by rewrite Hmore | by rewrite Hmore | done].
Qed.

(** *** The name of the uploaded file *)

Lemma has_slash_app a b : has_slash (a +:+ b) = has_slash a || has_slash b.
Proof.
  induction a as [|c a IH]; [done|]. simpl. rewrite IH.
  by rewrite orb_assoc.
Qed.

Lemma basename_without_slash p : has_slash p = false → basename p = p.
Proof.
  destruct p as [|c p]; [done|]. simpl. intros H. by rewrite H.
Qed.

(** For a path [dir/name] whose [name] has no slash, [basename] is [name],
    whatever [dir] is. *)
Lemma basename_of_joined_path dir name :
  has_slash name = false →
  basename (dir +:+ "/" +:+ name) = name.
Proof.
  intros Hname. induction dir as [|c dir IH].
  - simpl. change (Ascii.eqb _ slash) with true. simpl.
    by apply basename_without_slash.
  - change (basename (String c (dir +:+ "/" +:+ name)) = name).
    cbn [basename].
    rewrite has_slash_app.
    change (has_slash ("/" +:+ name)) with (true || has_slash name).
    cbn [orb]. rewrite !orb_true_r. exact IH.
Qed.

(** X8.  For a dataset at [dir/name], where [name] has no slash, a run that
    gets to open the file uploads its content tagged ["fine-tune"] under the
    name [name]: the directory part of the path never reaches the
    provider. *)
Theorem finetune_uploads_under_last_component fuel w self content dir name :
  data_path self = dir +:+ "/" +:+ name →
  has_slash name = false →
  w_validate_json w 0 (data_path self) = Ok tt →
  w_open w 0 (data_path self) "rb" = Ok content →
  EvFileCreate content "fine-tune" name
  ∈ outcome_trace (finetune fuel w self []).
Proof.
  intros Hpath Hname Hv Ho.
  assert (basename (data_path self) = name) as Hbase
    by (rewrite Hpath; by apply basename_of_joined_path).
  rewrite finetune_unfold.
  change (calls is_validate []) with 0%nat. rewrite Hv. cbv zeta.
  change (calls is_open _) with 0%nat. rewrite Ho.
  change (calls is_upload _) with 0%nat. rewrite Hbase.
  destruct (w_File_create w 0 content "fine-tune" name) as [output|e].
  - match goal with
    | |- context [launch_training fuel output w self ?t3] =>
        pose proof (launch_training_shape w self output fuel t3) as Hshape;
        cbv zeta in Hshape;
        assert (EvFileCreate content "fine-tune" name ∈ t3) as Hin
          by (rewrite !elem_of_app, !elem_of_cons; auto 10);
        remember t3 as T3 eqn:HT3; clear HT3;
        destruct (launch_training fuel output w self T3)
          as [[] s1 t1|e1 s1 t1|s1 t1]
    end; cbn [outcome_trace].
    + destruct Hshape as (n & j & _ & _ & _ & _ & ->).
      rewrite !elem_of_app. auto.
    + destruct Hshape as (n & _ & _ & _ & _ & _ & ->).
      rewrite !elem_of_app. auto.
    + destruct Hshape as (_ & _ & ->). rewrite !elem_of_app. auto.
  - cbn [outcome_trace]. rewrite !elem_of_app, !elem_of_cons. auto 10.
Qed.

Lemma finetune_uploads_under_last_component_witness :
  (data_path fresh_engine = "data" +:+ "/" +:+ "train.jsonl"
   ∧ has_slash "train.jsonl" = false
   ∧ w_validate_json (world_ready_after 2) 0 (data_path fresh_engine) = Ok tt
   ∧ w_open (world_ready_after 2) 0 (data_path fresh_engine) "rb"
     = Ok "{messages: []}")
  ∧ EvFileCreate "{messages: []}" "fine-tune" "train.jsonl"
    ∈ outcome_trace (finetune 3 (world_ready_after 2) fresh_engine []).
Proof.
  split; [repeat split|].
  apply (finetune_uploads_under_last_component 3 (world_ready_after 2)
           fresh_engine "{messages: []}" "data" "train.jsonl");
    reflexivity.
Defined.

(** X9.  The name sent along with the upload never contains a slash and is
    what the dataset path ends with; what comes before it is empty when the
    path has no slash and ends with a slash otherwise. *)
Theorem basename_is_the_last_component p :
  has_slash (basename p) = false
  ∧ ∃ dir,
      p = dir +:+ basename p
      ∧ (has_slash p = false → dir = "")
      ∧ (has_slash p = true → ∃ dir', dir = dir' +:+ "/").
Proof.
  induction p as [|c p (IHs & dir & IHp & IHnone & IHsome)].
  - split; [done|]. exists "". split; [done|]. split; [done|]. discriminate.
  - cbn [basename has_slash].
    destruct (Ascii.eqb c slash) eqn:Hc; cbn [orb].
    + split; [done|].
      apply Ascii.eqb_eq in Hc. subst c.
      destruct (has_slash p) eqn:Hp.
      * destruct (IHsome eq_refl) as [dir' ->].
        exists (String slash (dir' +:+ "/")).
        split; [change (String ?a ?x +:+ ?y) with (String a (x +:+ y)); by f_equal|].
        split; [done|]. intros _. by exists (String slash dir').
      * rewrite (IHnone eq_refl) in IHp. simpl in IHp.
        exists "/". split; [change (String ?a ?x +:+ ?y) with (String a (x +:+ y)); by f_equal|].
        split; [done|]. intros _. by exists "".
    + destruct (has_slash p) eqn:Hp.
      * split; [done|].
        destruct (IHsome eq_refl) as [dir' ->].
        exists (String c (dir' +:+ "/")).
        split; [change (String ?a ?x +:+ ?y) with (String a (x +:+ y)); by f_equal|].
        split; [done|]. intros _. by exists (String c dir').
      * split; [simpl; by rewrite Hc, Hp|].
        exists "". split; [done|]. split; [done|]. discriminate.
Qed.

End FinetuneRuns.

(** * Further properties of observing a job *)

Module FinetuneObserving.
Import OpenAIFinetuneEngine Scenarios Observations Views FinetuneProperties.
Import FinetuneRuns.

(** X10.  Polling never caches: two polls in a row ask the provider twice,
    both times for the id of the job stored in the engine (also when the
    first answer carries another id), return the second answer, and leave
    the stored snapshot as it was. *)
Theorem get_current_job_polls_by_stored_id w self t start_job first second :
  _start_job self = Some start_job →
  w_FineTuningJob_retrieve w (calls is_job_retrieve t) (job_id start_job)
  = Ok first →
  w_FineTuningJob_retrieve w (S (calls is_job_retrieve t)) (job_id start_job)
  = Ok second →
  (_ <- get_current_job ;; get_current_job) w self t
  = Returned second self
      (t ++ [ EvJobRetrieve (job_id start_job);
              EvJobRetrieve (job_id start_job) ]).
Proof.
  intros Hjob H1 H2. unfold bind.
  rewrite get_current_job_unfold, Hjob, H1.
  rewrite get_current_job_unfold, Hjob, calls_snoc. simpl.
  replace (calls is_job_retrieve t + 1)%nat
    with (S (calls is_job_retrieve t)) by lia.
  rewrite H2. by rewrite <- app_assoc.
Qed.

Lemma get_current_job_polls_by_stored_id_witness :
  (_start_job resumed_engine = Some job_running
   ∧ w_FineTuningJob_retrieve world_finishing 0 "ftjob-1" = Ok job_running
   ∧ w_FineTuningJob_retrieve world_finishing 1 "ftjob-1" = Ok job_succeeded)
  ∧ (_ <- get_current_job ;; get_current_job) world_finishing resumed_engine []
    = Returned job_succeeded resumed_engine
        [EvJobRetrieve "ftjob-1"; EvJobRetrieve "ftjob-1"].
Proof.
  split; [repeat split|].
  apply (get_current_job_polls_by_stored_id world_finishing resumed_engine []
           job_running job_running job_succeeded);
    reflexivity.
Defined.

(** X11.  Whatever makes [get_current_job] fail -- no job stored, or the
    provider refusing the retrieval -- makes [get_finetuned_model] fail in
    the same way, with the same engine and trace: the constructor of the
    model handle is not called. *)
Theorem get_finetuned_model_propagates_job_failure model_kwargs w self t e
    s' t' :
  get_current_job w self t = Raised e s' t' →
  get_finetuned_model model_kwargs w self t = Raised e s' t'
  ∧ calls is_factory t' = calls is_factory t.
Proof.
  intros Hjob. split.
  - unfold get_finetuned_model. unfold bind at 1. by rewrite Hjob.
  - rewrite get_current_job_unfold in Hjob.
    destruct (_start_job self) as [start_job|]; [|by simplify_eq].
    destruct (w_FineTuningJob_retrieve _ _ _); simplify_eq.
    rewrite calls_snoc. simpl. lia.
Qed.

Lemma get_finetuned_model_propagates_job_failure_witness :
  get_current_job (world_retrieving job_succeeded) fresh_engine []
  = Raised (Exn ValueError "Must call finetune() first") fresh_engine []
  ∧ get_finetuned_model decoding_config (world_retrieving job_succeeded)
      fresh_engine []
    = Raised (Exn ValueError "Must call finetune() first") fresh_engine []
  ∧ calls is_factory [] = calls is_factory [].
Proof.
  assert (get_current_job (world_retrieving job_succeeded) fresh_engine []
          = Raised (Exn ValueError "Must call finetune() first")
              fresh_engine []) as Hjob by reflexivity.
  split; [exact Hjob|].
  exact (get_finetuned_model_propagates_job_failure decoding_config _ _ _ _ _ _
           Hjob).
Defined.

(** X12.  A model handle is returned only for a job whose fresh snapshot has
    status ["succeeded"] and a model id, and only from the constructor called
    with that id: the handle is the constructor's answer, the engine is
    unchanged, and the run consists of one retrieval and one constructor
    call. *)
Theorem get_finetuned_model_returns_only_when_succeeded model_kwargs w self t
    llm s' t' :
  get_finetuned_model model_kwargs w self t = Returned llm s' t' →
  ∃ start_job current_job model_id,
    _start_job self = Some start_job
    ∧ w_FineTuningJob_retrieve w (calls is_job_retrieve t) (job_id start_job)
      = Ok current_job
    ∧ status current_job = "succeeded"
    ∧ fine_tuned_model current_job = Some model_id
    ∧ model_kwargs !! "model" = None
    ∧ w_OpenAI w (calls is_factory t) (<["model" := PStr model_id]> model_kwargs)
      = Ok llm
    ∧ s' = self
    ∧ t' = t ++ [ EvJobRetrieve (job_id start_job);
                  EvOpenAI (<["model" := PStr model_id]> model_kwargs) ].
Proof.
  intros Hrun.
  destruct (_start_job self) as [start_job|] eqn:Hjob.
  2: { unfold get_finetuned_model in Hrun. unfold bind at 1 in Hrun.
       rewrite get_current_job_unfold, Hjob in Hrun. discriminate. }
  destruct (w_FineTuningJob_retrieve w (calls is_job_retrieve t)
              (job_id start_job)) as [current_job|e] eqn:Hret.
  2: { unfold get_finetuned_model in Hrun. unfold bind at 1 in Hrun.
       rewrite get_current_job_unfold, Hjob, Hret in Hrun. discriminate. }
  rewrite (get_finetuned_model_unfold _ _ _ _ _ _ Hjob Hret) in Hrun.
  cbv zeta in Hrun.
  destruct (fine_tuned_model current_job) as [model_id|] eqn:Hmodel;
    [|discriminate].
  destruct (String.eqb (status current_job) "succeeded") eqn:Hstatus;
    [|discriminate].
  apply String.eqb_eq in Hstatus. cbn [negb] in Hrun.
  cbn [bind_keywords] in Hrun.
  destruct (model_kwargs !! "model") eqn:Hfree; [discriminate|].
  rewrite calls_snoc in Hrun. cbn [is_factory] in Hrun.
  rewrite Nat.add_0_r in Hrun.
  destruct (w_OpenAI w (calls is_factory t) _) as [llm'|e] eqn:Hllm;
    [|discriminate].
  exists start_job, current_job, model_id.
  assert (llm' = llm) as -> by congruence.
  assert (s' = self) as -> by congruence.
  assert (t' = (t ++ [EvJobRetrieve (job_id start_job)])
               ++ [EvOpenAI (<["model" := PStr model_id]> model_kwargs)])
    as -> by congruence.
  repeat split; try done. by rewrite <- app_assoc.
Qed.

Lemma get_finetuned_model_returns_only_when_succeeded_witness :
  get_finetuned_model decoding_config (world_retrieving job_succeeded)
    resumed_engine []
  = Returned
      {| llm_fields := <["model" := PStr "ft:abc123"]> decoding_config |}
      resumed_engine
      [ EvJobRetrieve "ftjob-1";
        EvOpenAI (<["model" := PStr "ft:abc123"]> decoding_config) ]
  ∧ ∃ start_job current_job model_id,
      _start_job resumed_engine = Some start_job
      ∧ w_FineTuningJob_retrieve (world_retrieving job_succeeded)
          (calls is_job_retrieve []) (job_id start_job) = Ok current_job
      ∧ status current_job = "succeeded"
      ∧ fine_tuned_model current_job = Some model_id
      ∧ decoding_config !! "model" = None
      ∧ w_OpenAI (world_retrieving job_succeeded) (calls is_factory [])
          (<["model" := PStr model_id]> decoding_config)
        = Ok {| llm_fields := <["model" := PStr "ft:abc123"]> decoding_config |}
      ∧ resumed_engine = resumed_engine
      ∧ [ EvJobRetrieve "ftjob-1";
          EvOpenAI (<["model" := PStr "ft:abc123"]> decoding_config) ]
        = [] ++ [ EvJobRetrieve (job_id start_job);
                  EvOpenAI (<["model" := PStr model_id]> decoding_config) ].
Proof.
  assert (get_finetuned_model decoding_config (world_retrieving job_succeeded)
            resumed_engine []
          = Returned
              {| llm_fields := <["model" := PStr "ft:abc123"]> decoding_config |}
              resumed_engine
              [ EvJobRetrieve "ftjob-1";
                EvOpenAI (<["model" := PStr "ft:abc123"]> decoding_config) ])
    as Hrun by reflexivity.
  split; [exact Hrun|].
  exact (get_finetuned_model_returns_only_when_succeeded _ _ _ _ _ _ _ Hrun).
Defined.

(** X13.  Submission and observation compose: after [finetune] has
    launched a job, [get_finetuned_model] asks for the job that the accepted
    submission returned, and, when the provider reports it succeeded with a
    model id, returns the handle built for that id; the engine keeps the
    snapshot stored at submission. *)
Theorem finetune_then_get_finetuned_model w self content output n j fuel
    current_job model_id model_kwargs llm :
  uploads w self content output →
  rejects w self output 0 n →
  w_FineTuningJob_create w n (file_id output) (base_model self) = Ok j →
  (n < fuel)%nat →
  w_FineTuningJob_retrieve w 0 (job_id j) = Ok current_job →
  status current_job = "succeeded" →
  fine_tuned_model current_job = Some model_id →
  model_kwargs !! "model" = None →
  w_OpenAI w 0 (<["model" := PStr model_id]> model_kwargs) = Ok llm →
  (_ <- finetune fuel ;; get_finetuned_model model_kwargs) w self []
  = Returned llm (set_start_job (Some j) self)
      ((upload_trace self content
        ++ retry_rounds n (file_id output) (base_model self)
        ++ [EvJobCreate (file_id output) (base_model self)]
        ++ launched_trace self output)
       ++ [ EvJobRetrieve (job_id j);
            EvOpenAI (<["model" := PStr model_id]> model_kwargs) ]).
Proof.
  intros Hup Hrej Hok Hfuel Hret Hstatus Hmodel Hfree Hllm.
  unfold bind at 1.
  rewrite (finetune_after_upload _ _ _ _ _ Hup).
  rewrite (launch_training_succeeds w self output n j)
    by (rewrite ?calls_upload_trace; done).
  rewrite <- !app_assoc.
  set (T := upload_trace self content
            ++ retry_rounds n (file_id output) (base_model self)
            ++ [EvJobCreate (file_id output) (base_model self)]
            ++ launched_trace self output).
  assert (calls is_job_retrieve T = 0%nat ∧ calls is_factory T = 0%nat)
    as [Hr Hf].
  { subst T. unfold upload_trace, launched_trace.
    rewrite !calls_app, !calls_retry_rounds_other by done.
    by destruct (_verbose self). }
  rewrite (get_finetuned_model_unfold model_kwargs w
             (set_start_job (Some j) self) T j current_job);
    [|done|by rewrite Hr].
  cbv zeta. rewrite Hmodel, Hstatus, String.eqb_refl.
  cbn [negb bind_keywords].
  rewrite Hfree, calls_snoc, Hf. cbn [is_factory Nat.add].
  rewrite Hllm. subst T. by rewrite <- !app_assoc.
Qed.

Lemma finetune_then_get_finetuned_model_witness :
  (uploads (world_ready_after 1) fresh_engine "{messages: []}"
     {| file_id := "file-1" |}
   ∧ rejects (world_ready_after 1) fresh_engine {| file_id := "file-1" |} 0 1
   ∧ w_FineTuningJob_create (world_ready_after 1) 1 "file-1" "gpt-3.5-turbo"
     = Ok job_running
   ∧ (1 < 2)%nat
   ∧ w_FineTuningJob_retrieve (world_ready_after 1) 0 "ftjob-1"
     = Ok job_succeeded
   ∧ status job_succeeded = "succeeded"
   ∧ fine_tuned_model job_succeeded = Some "ft:abc123"
   ∧ decoding_config !! "model" = None
   ∧ w_OpenAI (world_ready_after 1) 0
       (<["model" := PStr "ft:abc123"]> decoding_config)
     = Ok {| llm_fields := <["model" := PStr "ft:abc123"]> decoding_config |})
  ∧ (_ <- finetune 2 ;; get_finetuned_model decoding_config)
      (world_ready_after 1) fresh_engine []
    = Returned
        {| llm_fields := <["model" := PStr "ft:abc123"]> decoding_config |}
        (set_start_job (Some job_running) fresh_engine)
        ((upload_trace fresh_engine "{messages: []}"
          ++ retry_rounds 1 "file-1" "gpt-3.5-turbo"
          ++ [EvJobCreate "file-1" "gpt-3.5-turbo"]
          ++ launched_trace fresh_engine {| file_id := "file-1" |})
         ++ [ EvJobRetrieve "ftjob-1";
              EvOpenAI (<["model" := PStr "ft:abc123"]> decoding_config) ]).
Proof.
  assert (rejects (world_ready_after 1) fresh_engine
            {| file_id := "file-1" |} 0 1) as Hrej.
  { intros k Hk. exists file_not_ready. destruct k; [by split | lia]. }
  assert (1 < 2)%nat as Hlt by lia.
  split; [repeat split; [exact Hrej | exact Hlt]|].
  apply (finetune_then_get_finetuned_model (world_ready_after 1) fresh_engine
           "{messages: []}" {| file_id := "file-1" |} 1 job_running 2
           job_succeeded "ft:abc123" decoding_config);
    [repeat split | exact Hrej | reflexivity | exact Hlt | reflexivity
    | reflexivity | reflexivity | reflexivity | reflexivity].
Defined.

(** X14.  An engine built with the id of an earlier job fetches that job at
    once and stores the answer; a later poll asks for the id found in that
    answer, as the second retrieval.  When the first retrieval fails, no
    engine is built. *)
Theorem resume_then_poll base_model data_path verbose id w t :
  match w_FineTuningJob_retrieve w (calls is_job_retrieve t) id with
  | Ok j =>
      ∃ self,
        __init__ base_model data_path verbose (Some id) w tt t
        = Returned self tt (t ++ [EvJobRetrieve id])
        ∧ _start_job self = Some j
        ∧ get_current_job w self (t ++ [EvJobRetrieve id])
          = match w_FineTuningJob_retrieve w (S (calls is_job_retrieve t))
                    (job_id j) with
            | Ok fresh =>
                Returned fresh self
                  (t ++ [EvJobRetrieve id; EvJobRetrieve (job_id j)])
            | Raise e =>
                Raised e self
                  (t ++ [EvJobRetrieve id; EvJobRetrieve (job_id j)])
            end
  | Raise e =>
      __init__ base_model data_path verbose (Some id) w tt t
      = Raised e tt (t ++ [EvJobRetrieve id])
  end.
Proof.
  rewrite init_start_job.
  destruct (w_FineTuningJob_retrieve w (calls is_job_retrieve t) id)
    as [j|e]; [|done].
  eexists. split; [reflexivity|]. split; [reflexivity|].
  rewrite get_current_job_unfold. cbn [_start_job].
  rewrite calls_snoc. cbn [is_job_retrieve].
  replace (calls is_job_retrieve t + 1)%nat
    with (S (calls is_job_retrieve t)) by lia.
  destruct (w_FineTuningJob_retrieve _ _ _); by rewrite <- app_assoc.
Qed.

End FinetuneObserving.

(** * Further properties of the Azure deployment wrapper *)

Module AzureRouting.
Import AzureOpenAI Scenarios Views AzureProperties.

Lemma str_in_elem_of x xs : str_in x xs = true ↔ x ∈ xs.
Proof.
  unfold str_in. induction xs as [|y xs IH]; simpl.
  - rewrite elem_of_nil. split; [discriminate|done].
  - rewrite orb_true_iff, IH, elem_of_cons, String.eqb_eq. done.
Qed.

(** [validate_env] by the settings it finds. *)
Lemma validate_env_cases {S} (w : world) (s : S) (t : trace) :
  match validate_env w s t with
  | Returned _ s' t' =>
      s' = s ∧ t' = t ++ [EvImport "openai"]
      ∧ ∃ openai, w_openai w = Some openai ∧ routes_to_azure openai
  | Raised e s' t' =>
      s' = s ∧ t' = t ++ [EvImport "openai"]
      ∧ ((w_openai w = None
          ∧ e = Exn ImportError
                  "You must install the `openai` package to use Azure OpenAI.")
         ∨ (∃ openai, w_openai w = Some openai ∧ ¬ routes_to_azure openai
                      ∧ exn_cls e = ValueError))
  | OutOfFuel _ _ => False
  end.
Proof.
  rewrite validate_env_unfold. cbv zeta.
  destruct (w_openai w) as [openai|]; [|by repeat split; left].
  destruct (String.eqb (api_base openai) _) eqn:Hbase.
  { apply String.eqb_eq in Hbase. repeat split. right. exists openai.
    repeat split. intros (Hb & _). done. }
  apply String.eqb_neq in Hbase.
  destruct (str_in (api_type openai) _) eqn:Htype; cbn [negb].
  2: { repeat split. right. exists openai. repeat split.
       intros (_ & Ht & _). apply str_in_elem_of in Ht. congruence. }
  apply str_in_elem_of in Htype.
  destruct (api_version openai) as [v|] eqn:Hver.
  - repeat split. exists openai. repeat split; try done. by rewrite Hver.
  - repeat split. right. exists openai. repeat split.
    intros (_ & _ & Hv). done.
Qed.

Lemma validate_env_accepts_exactly_azure_routing_aux (w : world) (t : trace) :
  validate_env w tt t = Returned tt tt (t ++ [EvImport "openai"])
  ↔ ∃ openai, w_openai w = Some openai ∧ routes_to_azure openai.
Proof.
  pose proof (validate_env_cases w tt t) as Hcases. split.
  - intros Hrun. rewrite Hrun in Hcases. by destruct Hcases as (_ & _ & H).
  - intros (openai & Hw & Hroute).
    destruct (validate_env w tt t) as [[] [] t'|e s' t'|]; [| |done].
    + by destruct Hcases as (_ & -> & _).
    + destruct Hcases as (_ & _ & [[Hnone _]|(openai' & Hw' & Hnot & _)]).
      * congruence.
      * assert (openai' = openai) as -> by congruence. done.
Qed.

(** X15.  [validate_env] lets the construction go on exactly when the
    [openai] package is there, its API base is not the public endpoint, its
    API type is one of [azure], [azure_ad], [azuread], and an API version is
    set; the credential is not looked at. *)
Theorem validate_env_accepts_exactly_azure_routing {S} (w : world) (s : S)
    (t : trace) :
  (∃ s' t', validate_env w s t = Returned tt s' t')
  ↔ ∃ openai, w_openai w = Some openai ∧ routes_to_azure openai.
Proof.
  pose proof (validate_env_cases w s t) as Hcases. split.
  - intros (s' & t' & Hrun). rewrite Hrun in Hcases.
    by destruct Hcases as (_ & _ & H).
  - intros (openai & Hw & Hroute).
    destruct (validate_env w s t) as [[] s' t'|e s' t'|]; [by eauto| |done].
    destruct Hcases as (_ & _ & [[Hnone _]|(openai' & Hw' & Hnot & _)]).
    + congruence.
    + assert (openai' = openai) as -> by congruence. done.
Qed.

(** X16.  A failure of [validate_env] leaves the state alone and happens
    right after the import; it is an [ImportError] with the hint to install
    the package exactly when the package is missing, and a [ValueError] when
    a setting is off: the handler for [ImportError] does not catch those. *)
Theorem validate_env_failures {S} (w : world) (s : S) (t : trace) e s' t' :
  validate_env w s t = Raised e s' t' →
  s' = s ∧ t' = t ++ [EvImport "openai"]
  ∧ ((w_openai w = None
      ∧ e = Exn ImportError
              "You must install the `openai` package to use Azure OpenAI.")
     ∨ (∃ openai, w_openai w = Some openai ∧ ¬ routes_to_azure openai
                  ∧ exn_cls e = ValueError)).
Proof.
  intros Hrun. pose proof (validate_env_cases w s t) as Hcases.
  by rewrite Hrun in Hcases.
Qed.

Lemma validate_env_failures_witness :
  validate_env world_without_openai tt []
  = Raised (Exn ImportError
              "You must install the `openai` package to use Azure OpenAI.")
      tt [EvImport "openai"]
  ∧ tt = tt ∧ [EvImport "openai"] = [] ++ [EvImport "openai"]
  ∧ ((w_openai world_without_openai = None
      ∧ Exn ImportError
          "You must install the `openai` package to use Azure OpenAI."
        = Exn ImportError
            "You must install the `openai` package to use Azure OpenAI.")
     ∨ (∃ openai, w_openai world_without_openai = Some openai
                  ∧ ¬ routes_to_azure openai
                  ∧ exn_cls
                      (Exn ImportError
                         "You must install the `openai` package to use Azure OpenAI.")
                    = ValueError)).
Proof.
  assert (validate_env world_without_openai tt []
          = Raised (Exn ImportError
                      "You must install the `openai` package to use Azure OpenAI.")
              tt [EvImport "openai"]) as Hrun by reflexivity.
  split; [exact Hrun|].
  exact (validate_env_failures world_without_openai tt [] _ _ _ Hrun).
Defined.

(** X17.  Only the first setting that is off is reported, in the order API
    base, API type, API version: the public endpoint is reported whatever
    the type and version are, a foreign type whatever the version is, and a
    missing version only when base and type are fine; each message names the
    environment variable to set. *)
Theorem validate_env_reports_first_problem {S} (w : world) (s : S) (t : trace)
    openai :
  w_openai w = Some openai →
  (api_base openai = "https://api.openai.com/v1" →
   validate_env w s t
   = Raised (Exn ValueError
               ("You must set OPENAI_API_BASE to your Azure endpoint. "
                +:+ "It should look like https://YOUR_RESOURCE_NAME.openai.azure.com/"))
       s (t ++ [EvImport "openai"]))
  ∧ (api_base openai ≠ "https://api.openai.com/v1" →
     api_type openai ∉ ["azure"; "azure_ad"; "azuread"] →
     validate_env w s t
     = Raised (Exn ValueError
                 ("You must set OPENAI_API_TYPE to one of "
                  +:+ "(`azure`, `azuread`, `azure_ad`) for Azure OpenAI."))
         s (t ++ [EvImport "openai"]))
  ∧ (api_base openai ≠ "https://api.openai.com/v1" →
     api_type openai ∈ ["azure"; "azure_ad"; "azuread"] →
     api_version openai = None →
     validate_env w s t
     = Raised (Exn ValueError
                 "You must set OPENAI_API_VERSION for Azure OpenAI.")
         s (t ++ [EvImport "openai"])).
Proof.
  intros Hw. rewrite validate_env_unfold, Hw. cbv zeta.
  split; [|split].
  - intros Hbase. by rewrite Hbase, String.eqb_refl.
  - intros Hbase Htype. apply String.eqb_neq in Hbase. rewrite Hbase.
    destruct (str_in (api_type openai) _) eqn:Hin; [|done].
    by apply str_in_elem_of in Hin.
  - intros Hbase Htype Hver. apply String.eqb_neq in Hbase. rewrite Hbase.
    apply str_in_elem_of in Htype. by rewrite Htype, Hver.
Qed.

Lemma validate_env_reports_first_problem_witness :
  (w_openai world_public = Some public_settings
   ∧ api_base public_settings = "https://api.openai.com/v1"
   ∧ (api_type public_settings ∉ ["azure"; "azure_ad"; "azuread"])
   ∧ api_version public_settings = None)
  ∧ validate_env world_public tt []
    = Raised (Exn ValueError
                ("You must set OPENAI_API_BASE to your Azure endpoint. "
                 +:+ "It should look like https://YOUR_RESOURCE_NAME.openai.azure.com/"))
        tt ([] ++ [EvImport "openai"]).
Proof.
  split.
  - repeat split. intros Hin. apply str_in_elem_of in Hin. discriminate.
  - apply (proj1 (validate_env_reports_first_problem world_public tt []
                    public_settings eq_refl)).
    reflexivity.
Defined.

(** *** Construction *)

(** Binding keywords succeeds when no name is given twice, and then overlays
    the named values on the starred mapping. *)
Lemma bind_keywords_disjoint named star :
  (∀ k v, (k, v) ∈ named → star !! k = None) →
  bind_keywords named star = Ok (keywords_over named star).
Proof.
  induction named as [|[k v] named IH]; intros Hfree; [done|].
  cbn [bind_keywords keywords_over].
  rewrite (Hfree k v) by apply list_elem_of_here.
  rewrite IH; [done|].
  intros k' v' Hin. apply (Hfree k' v'). by apply list_elem_of_further.
Qed.

Lemma keywords_over_other named star k :
  k ∉ named.*1 → keywords_over named star !! k = star !! k.
Proof.
  induction named as [|[k' v'] named IH]; intros Hk; [done|].
  cbn [keywords_over]. cbn in Hk. apply not_elem_of_cons in Hk as [Hne Hk].
  rewrite lookup_insert_ne by done. by apply IH.
Qed.

(** [__init__] step by step. *)
Lemma init_unfold a w t :
  __init__ a w tt t =
    match a_engine a with
    | None =>
        Raised (Exn ValueError "You must specify an `engine` parameter.") tt t
    | Some engine =>
        match validate_env w tt t with
        | Returned _ _ t1 =>
            match bind_keywords (super_init_keywords engine a) (a_kwargs a)
            with
            | Ok kwargs =>
                match w_OpenAI w (calls is_factory t1) kwargs with
                | Ok llm =>
                    Returned {| engine := engine; parent := llm |} tt
                      (t1 ++ [EvOpenAI kwargs])
                | Raise e => Raised e tt (t1 ++ [EvOpenAI kwargs])
                end
            | Raise e => Raised e tt t1
            end
        | Raised e _ t1 => Raised e tt t1
        | OutOfFuel _ t1 => OutOfFuel tt t1
        end
    end.
Proof.
  unfold __init__. destruct (a_engine a) as [engine|]; [|done].
  unfold bind at 1.
  destruct (validate_env w tt t) as [[] [] t1|e [] t1|[] t1]; try done.
  cbv beta iota zeta delta [bind lift_result OpenAI call ret raise].
  destruct (bind_keywords _ _) as [kwargs|e]; [|done].
  by destruct (w_OpenAI _ _ _).
Qed.

(** X18.  When an engine is given but [validate_env] fails, [__init__]
    fails with the exception of [validate_env], and the parent constructor
    is not called. *)
Theorem init_stops_on_invalid_settings a w t engine e s' t' :
  a_engine a = Some engine →
  validate_env w tt t = Raised e s' t' →
  __init__ a w tt t = Raised e tt t'
  ∧ calls is_factory t' = calls is_factory t.
Proof.
  intros Heng Hval. rewrite init_unfold, Heng, Hval. split; [done|].
  pose proof (validate_env_cases w tt t) as Hcases. rewrite Hval in Hcases.
  destruct Hcases as (_ & -> & _). rewrite FinetuneProperties.calls_snoc. simpl. lia.
Qed.

Lemma init_stops_on_invalid_settings_witness :
  (a_engine azure_args = Some "my-deployment"
   ∧ validate_env world_public tt []
     = Raised (Exn ValueError
                 ("You must set OPENAI_API_BASE to your Azure endpoint. "
                  +:+ "It should look like https://YOUR_RESOURCE_NAME.openai.azure.com/"))
         tt [EvImport "openai"])
  ∧ __init__ azure_args world_public tt []
    = Raised (Exn ValueError
                ("You must set OPENAI_API_BASE to your Azure endpoint. "
                 +:+ "It should look like https://YOUR_RESOURCE_NAME.openai.azure.com/"))
        tt [EvImport "openai"]
  ∧ calls is_factory [EvImport "openai"] = calls is_factory [].
Proof.
  split; [split; reflexivity|].
  apply (init_stops_on_invalid_settings azure_args world_public []
           "my-deployment" _ tt);
    reflexivity.
Defined.

(** X19.  With an engine and settings that route to Azure, [__init__] calls
    the parent constructor once, right after the import, with the engine
    under ["engine"], the model under ["model"], and every keyword the
    signature does not name exactly as the caller gave it; the new
    instance carries that engine and what the parent constructor built. *)
Theorem init_forwards_keywords a w t engine openai :
  a_engine a = Some engine →
  w_openai w = Some openai →
  routes_to_azure openai →
  (∀ k, k ∈ super_init_names → a_kwargs a !! k = None) →
  let kwargs := keywords_over (super_init_keywords engine a) (a_kwargs a) in
  __init__ a w tt t
  = match w_OpenAI w (calls is_factory t) kwargs with
    | Ok llm =>
        Returned {| AzureOpenAI.engine := engine; parent := llm |} tt
          (t ++ [EvImport "openai"; EvOpenAI kwargs])
    | Raise e => Raised e tt (t ++ [EvImport "openai"; EvOpenAI kwargs])
    end
  ∧ kwargs !! "engine" = Some (PStr engine)
  ∧ kwargs !! "model" = Some (PStr (a_model a))
  ∧ ∀ k, k ∉ super_init_names → kwargs !! k = a_kwargs a !! k.
Proof.
  intros Heng Hw Hroute Hfree kwargs.
  split; [|split; [|split]].
  - rewrite init_unfold, Heng.
    pose proof (proj2 (validate_env_accepts_exactly_azure_routing_aux w t)
                  (ex_intro _ openai (conj Hw Hroute))) as Hval.
    rewrite Hval.
    rewrite bind_keywords_disjoint.
    + fold kwargs. rewrite FinetuneProperties.calls_snoc. cbn [is_factory].
      rewrite Nat.add_0_r.
      destruct (w_OpenAI _ _ _); by rewrite <- app_assoc.
    + intros k v Hin. apply Hfree.
      unfold super_init_keywords in Hin. unfold super_init_names.
      rewrite !elem_of_cons, elem_of_nil in Hin.
      rewrite !elem_of_cons.
      destruct Hin as [?|[?|[?|[?|[?|[?|[?|[]]]]]]]]; simplify_eq; auto 10.
  - subst kwargs. cbn [keywords_over super_init_keywords].
    apply lookup_insert_eq.
  - subst kwargs. cbn [keywords_over super_init_keywords].
    rewrite lookup_insert_ne by done. apply lookup_insert_eq.
  - intros k Hk. subst kwargs. by apply keywords_over_other.
Qed.

Lemma init_forwards_keywords_witness :
  (a_engine azure_args_with_extra = Some "my-deployment"
   ∧ w_openai world_azure = Some azure_settings
   ∧ routes_to_azure azure_settings
   ∧ ∀ k, k ∈ super_init_names → a_kwargs azure_args_with_extra !! k = None)
  ∧ ∃ kwargs,
      __init__ azure_args_with_extra world_azure tt []
      = Returned {| AzureOpenAI.engine := "my-deployment";
                    parent := {| llm_fields := kwargs |} |}
          tt ([] ++ [EvImport "openai"; EvOpenAI kwargs])
      ∧ kwargs !! "engine" = Some (PStr "my-deployment")
      ∧ kwargs !! "model" = Some (PStr "gpt-35-turbo")
      ∧ ∀ k, k ∉ super_init_names →
             kwargs !! k = a_kwargs azure_args_with_extra !! k.
Proof.
  assert (routes_to_azure azure_settings) as Hroute.
  { repeat split; [discriminate | | discriminate].
    apply str_in_elem_of. reflexivity. }
  assert (∀ k, k ∈ super_init_names →
               a_kwargs azure_args_with_extra !! k = None) as Hfree.
  { intros k Hk. unfold super_init_names in Hk.
    rewrite !elem_of_cons, elem_of_nil in Hk.
    destruct Hk as [->|[->|[->|[->|[->|[->|[->|[]]]]]]]]; reflexivity. }
  split; [repeat split; [apply Hroute.. | exact Hfree]|].
  eexists.
  exact (init_forwards_keywords azure_args_with_extra world_azure []
           "my-deployment" azure_settings eq_refl eq_refl Hroute Hfree).
Defined.

(** X20.  An instance exists only when an engine was given and the ambient
    settings route to Azure: a construction that returns has found the
    package, an API base other than the public endpoint, an Azure API type
    and an API version, and the instance carries the engine given. *)
Theorem init_succeeds_only_when_routed a w t inst s' t' :
  __init__ a w tt t = Returned inst s' t' →
  ∃ openai,
    a_engine a = Some (AzureOpenAI.engine inst)
    ∧ w_openai w = Some openai
    ∧ routes_to_azure openai.
Proof.
  rewrite init_unfold.
  destruct (a_engine a) as [eng|]; [|discriminate].
  pose proof (validate_env_cases w tt t) as Hcases.
  destruct (validate_env w tt t) as [[] [] t1|e [] t1|]; try discriminate.
  destruct Hcases as (_ & _ & openai & Hw & Hroute).
  destruct (bind_keywords _ _) as [kwargs|e]; [|discriminate].
  destruct (w_OpenAI _ _ _) as [llm|e]; [|discriminate].
  intros Hrun. exists openai.
  assert (inst = {| AzureOpenAI.engine := eng; parent := llm |}) as ->
    by congruence.
  done.
Qed.

Lemma init_succeeds_only_when_routed_witness :
  __init__ azure_args world_azure tt []
  = Returned
      {| AzureOpenAI.engine := "my-deployment";
         parent :=
           {| llm_fields :=
                keywords_over (super_init_keywords "my-deployment" azure_args)
                  ∅ |} |}
      tt
      [ EvImport "openai";
        EvOpenAI (keywords_over
                    (super_init_keywords "my-deployment" azure_args) ∅) ]
  ∧ ∃ openai,
      a_engine azure_args = Some "my-deployment"
      ∧ w_openai world_azure = Some openai
      ∧ routes_to_azure openai.
Proof.
  assert (__init__ azure_args world_azure tt []
          = Returned
              {| AzureOpenAI.engine := "my-deployment";
                 parent :=
                   {| llm_fields :=
                        keywords_over
                          (super_init_keywords "my-deployment" azure_args)
                          ∅ |} |}
              tt
              [ EvImport "openai";
                EvOpenAI (keywords_over
                            (super_init_keywords "my-deployment" azure_args)
                            ∅) ]) as Hrun by reflexivity.
  split; [exact Hrun|].
  exact (init_succeeds_only_when_routed _ _ _ _ _ _ Hrun).
Defined.

(** *** The request mapping *)

Section RequestMapping.
Variable super_model_kwargs : LLM → gmap string pyval.

(** [_model_kwargs] as one expression. *)
Lemma model_kwargs_unfold self :
  _model_kwargs super_model_kwargs self =
    match super_model_kwargs (parent self) !! "model" with
    | Some _ =>
        Ok (<["engine" := PStr (AzureOpenAI.engine self)]>
              (delete "model" (super_model_kwargs (parent self))))
    | None => Raise (Exn KeyError "'model'")
    end.
Proof.
  unfold _model_kwargs, dict_pop.
  by destruct (super_model_kwargs (parent self) !! "model").
Qed.

(** X21.  When the parent's mapping has no ["model"] entry, [_model_kwargs]
    produces no mapping at all: it fails with [KeyError('model')], also when
    there would be an engine to route to. *)
Theorem model_kwargs_needs_a_model self :
  super_model_kwargs (parent self) !! "model" = None →
  _model_kwargs super_model_kwargs self = Raise (Exn KeyError "'model'").
Proof. intros H. by rewrite model_kwargs_unfold, H. Qed.

(** X22.  The keys of the produced mapping are the keys of the parent's
    mapping without ["model"] and with ["engine"]; an ["engine"] entry the
    parent's mapping already had is replaced by the instance's own. *)
Theorem model_kwargs_keys self kwargs :
  _model_kwargs super_model_kwargs self = Ok kwargs →
  dom kwargs = {["engine"]} ∪ (dom (super_model_kwargs (parent self))
                                ∖ {["model"]})
  ∧ (∀ v, super_model_kwargs (parent self) !! "engine" = Some v →
          kwargs !! "engine" = Some (PStr (AzureOpenAI.engine self))).
Proof.
  rewrite model_kwargs_unfold.
  destruct (super_model_kwargs (parent self) !! "model"); [|discriminate].
  intros [= <-]. split.
  - by rewrite dom_insert_L, dom_delete_L.
  - intros v _. apply lookup_insert_eq.
Qed.

End RequestMapping.

Lemma model_kwargs_needs_a_model_witness :
  fields_as_request (parent azure_instance_without_model) !! "model" = None
  ∧ _model_kwargs fields_as_request azure_instance_without_model
    = Raise (Exn KeyError "'model'").
Proof.
  split; [reflexivity|].
  apply (model_kwargs_needs_a_model fields_as_request
           azure_instance_without_model).
  reflexivity.
Defined.

Lemma model_kwargs_keys_witness :
  _model_kwargs fields_as_request azure_instance_with_engine
  = Ok (<["engine" := PStr "my-deployment"]>
          (delete "model"
             (fields_as_request (parent azure_instance_with_engine))))
  ∧ dom (<["engine" := PStr "my-deployment"]>
           (delete "model"
              (fields_as_request (parent azure_instance_with_engine))))
    = {["engine"]}
      ∪ (dom (fields_as_request (parent azure_instance_with_engine))
         ∖ {["model"]})
  ∧ (∀ v, fields_as_request (parent azure_instance_with_engine) !! "engine"
          = Some v →
          <["engine" := PStr "my-deployment"]>
            (delete "model"
               (fields_as_request (parent azure_instance_with_engine)))
          !! "engine"
          = Some (PStr (AzureOpenAI.engine azure_instance_with_engine))).
Proof.
  assert (_model_kwargs fields_as_request azure_instance_with_engine
          = Ok (<["engine" := PStr "my-deployment"]>
                  (delete "model"
                     (fields_as_request (parent azure_instance_with_engine)))))
    as Hrun by reflexivity.
  split; [exact Hrun|].
  exact (model_kwargs_keys fields_as_request azure_instance_with_engine _ Hrun).
Defined.

(** X23.  Construction and request building compose: the mapping built for
    an instance that [__init__] returned routes to the engine passed to
    [__init__] and names no model, whatever else the parent puts into its
    mapping, provided the parent puts a model there. *)
Theorem init_then_model_kwargs (super_model_kwargs : LLM → gmap string pyval)
    a w t inst s' t' :
  __init__ a w tt t = Returned inst s' t' →
  is_Some (super_model_kwargs (parent inst) !! "model") →
  ∃ engine kwargs,
    a_engine a = Some engine
    ∧ _model_kwargs super_model_kwargs inst = Ok kwargs
    ∧ kwargs !! "engine" = Some (PStr engine)
    ∧ kwargs !! "model" = None.
Proof.
  intros Hrun [v Hv].
  rewrite init_unfold in Hrun.
  destruct (a_engine a) as [eng|]; [|discriminate].
  destruct (validate_env w tt t) as [[] [] t1|e [] t1|]; try discriminate.
  destruct (bind_keywords _ _) as [kw|e]; [|discriminate].
  destruct (w_OpenAI _ _ _) as [llm|e]; [|discriminate].
  assert (inst = {| AzureOpenAI.engine := eng; parent := llm |}) as ->
    by congruence.
  exists eng. eexists. split; [done|].
  rewrite model_kwargs_unfold, Hv. split; [reflexivity|]. split.
  - apply lookup_insert_eq.
  - rewrite lookup_insert_ne by done. apply lookup_delete_eq.
Qed.

Lemma init_then_model_kwargs_witness :
  (__init__ azure_args world_azure tt []
   = Returned
       {| AzureOpenAI.engine := "my-deployment";
          parent :=
            {| llm_fields :=
                 keywords_over (super_init_keywords "my-deployment" azure_args)
                   ∅ |} |}
       tt
       [ EvImport "openai";
         EvOpenAI (keywords_over
                     (super_init_keywords "my-deployment" azure_args) ∅) ]
   ∧ is_Some
       (fields_as_request
          {| llm_fields :=
               keywords_over (super_init_keywords "my-deployment" azure_args)
                 ∅ |} !! "model"))
  ∧ ∃ engine kwargs,
      a_engine azure_args = Some engine
      ∧ _model_kwargs fields_as_request
          {| AzureOpenAI.engine := "my-deployment";
             parent :=
               {| llm_fields :=
                    keywords_over
                      (super_init_keywords "my-deployment" azure_args) ∅ |} |}
        = Ok kwargs
      ∧ kwargs !! "engine" = Some (PStr engine)
      ∧ kwargs !! "model" = None.
Proof.
  assert (__init__ azure_args world_azure tt []
          = Returned
              {| AzureOpenAI.engine := "my-deployment";
                 parent :=
                   {| llm_fields :=
                        keywords_over
                          (super_init_keywords "my-deployment" azure_args)
                          ∅ |} |}
              tt
              [ EvImport "openai";
                EvOpenAI (keywords_over
                            (super_init_keywords "my-deployment" azure_args)
                            ∅) ]) as Hrun by reflexivity.
  assert (is_Some
            (fields_as_request
               {| llm_fields :=
                    keywords_over
                      (super_init_keywords "my-deployment" azure_args) ∅ |}
             !! "model")) as Hmodel by (eexists; reflexivity).
  split; [split; [exact Hrun | exact Hmodel]|].
  exact (init_then_model_kwargs fields_as_request _ _ _ _ _ _ Hrun Hmodel).
Defined.

End AzureRouting.

(** * Eager validation of the routing settings *)

Module AzureConstruction.
Import AzureOpenAI Scenarios Views ParentConstructor AzureProperties.
Import AzureRouting.




End AzureConstruction.
